(** * Heart-disease prediction front end: intake form, doctor login, dashboard

    A shallow embedding of the event handlers of three React components

      - [PatientForm]      (the multi-step intake form and its submission),
      - [DoctorLogin]      (both versions of the login handler),
      - [DoctorDashboard]  (the rule-based advisory text and the note saver),

    followed by the properties the specification states about them.

    Modelling conventions.

    - A React component's state is a record; a handler is a computation in a
      small monad that threads this record, appends to a trace of externally
      visible events (alerts, requests, storage writes, navigation) and
      finishes with a JavaScript completion: normal, [return], or a thrown
      exception.  [try]/[catch]/[finally] are combinators of that monad.
    - The single network request a handler awaits is answered by the
      environment; the answer is an argument of the handler.
    - JavaScript numbers that reach these handlers are finite (they come out
      of HTML number inputs, [select] options or [JSON.parse]); they are
      modelled as rationals, with one extra value for [NaN]. *)

From stdpp Require Import base strings list gmap.
From Stdlib Require Import Ascii String QArith ZArith.

Local Open Scope string_scope.
Local Open Scope list_scope.

(** ** JavaScript values and coercions *)

Module JS.

(** A JavaScript number: [NaN] or a finite value. *)
Inductive number : Type :=
| NaN
| Num (q : Q).

(** The values a clinical field can hold: the [number | ""] of the form's
    [FormData], the [number | null] of the posted payload, and [undefined]
    for a property that is absent. *)
Inductive jsval : Type :=
| JUndefined
| JNull
| JEmpty            (* the empty string "" *)
| JNum (n : number).

(** [ToNumber] of ECMAScript, the coercion behind [Number(v)] and [>=]. *)
Definition ToNumber (v : jsval) : number :=
  match v with
  | JUndefined => NaN
  | JNull => Num 0
  | JEmpty => Num 0
  | JNum n => n
  end.

(** [a >= b] on numbers: false as soon as one side is [NaN]. *)
Definition num_ge (a b : number) : bool :=
  match a, b with
  | Num x, Num y => Qle_bool y x
  | _, _ => false
  end.

(** [v >= t] for a numeric literal [t]. *)
Definition ge (v : jsval) (t : Q) : bool := num_ge (ToNumber v) (Num t).

(** Truthiness of an optional string ([undefined] and "" are falsy). *)
Definition truthy (o : option string) : bool :=
  match o with
  | Some s => negb (String.eqb s "")
  | None => false
  end.

(** [a || b] where [a] is an optional string and [b] a string. *)
Definition or_else (a : option string) (b : string) : string :=
  match a with
  | Some s => if String.eqb s "" then b else s
  | None => b
  end.

(** [a || b] where both sides may be absent. *)
Definition or_opt (a b : option string) : option string :=
  if truthy a then a else b.

(** [Array.prototype.join]. *)
Fixpoint join (sep : string) (l : list string) : string :=
  match l with
  | [] => ""
  | [x] => x
  | x :: rest => x ++ sep ++ join sep rest
  end.

(** [Array.prototype.slice(0, n)]. *)
Definition slice0 {A} (n : nat) (l : list A) : list A := firstn n l.

(** [String.prototype.includes]. *)
Definition includes (hay needle : string) : bool :=
  match String.index 0 needle hay with
  | Some _ => true
  | None => false
  end.

(** [needle] occurs somewhere in [hay]. *)
Definition occurs (needle hay : string) : Prop :=
  exists before after : string, hay = (before ++ needle ++ after)%string.

(** White space removed by [String.prototype.trim], restricted to the code
    points below 128: TAB, LF, VT, FF, CR and SPACE. *)
Definition is_space (c : ascii) : bool :=
  let n := nat_of_ascii c in
  (Nat.eqb n 9 || Nat.eqb n 10 || Nat.eqb n 11 || Nat.eqb n 12
   || Nat.eqb n 13 || Nat.eqb n 32)%bool.

Fixpoint trim_start (s : string) : string :=
  match s with
  | String c rest => if is_space c then trim_start rest else s
  | EmptyString => EmptyString
  end.

Fixpoint all_space (s : string) : bool :=
  match s with
  | String c rest => (is_space c && all_space rest)%bool
  | EmptyString => true
  end.

Fixpoint trim_end (s : string) : string :=
  match s with
  | String c rest => if all_space s then EmptyString else String c (trim_end rest)
  | EmptyString => EmptyString
  end.

Definition trim (s : string) : string := trim_end (trim_start s).

End JS.

(** ** Handlers: state, trace and completions *)

Module Handler.

(** How a block of statements finishes. *)
Inductive completion (A : Type) : Type :=
| Normal (a : A)
| Return
| Throw.

Arguments Normal {A} a.
Arguments Return {A}.
Arguments Throw {A}.

Section Monad.
Context {St Ev : Type}.

Definition handler (A : Type) : Type := St -> completion A * St * list Ev.

Definition ret {A} (a : A) : handler A := fun s => (Normal a, s, []).

Definition bind {A B} (m : handler A) (k : A -> handler B) : handler B :=
  fun s =>
    match m s with
    | (Normal a, s1, t1) =>
        match k a s1 with (c, s2, t2) => (c, s2, t1 ++ t2) end
    | (Return, s1, t1) => (Return, s1, t1)
    | (Throw, s1, t1) => (Throw, s1, t1)
    end.

(** A [setX(...)] call of [useState]: the update is queued and shows in
    the state the handler leaves behind. *)
Definition modify (f : St -> St) : handler unit := fun s => (Normal tt, f s, []).

(** The state cells as the handler sees them. *)
Definition get : handler St := fun s => (Normal s, s, []).

(** An externally visible action. *)
Definition emit (e : Ev) : handler unit := fun s => (Normal tt, s, [e]).

(** [return;] *)
Definition return_ {A} : handler A := fun s => (Return, s, []).

(** [throw] (also: an awaited promise that rejects). *)
Definition throw {A} : handler A := fun s => (Throw, s, []).

(** [try { body } catch (err) { handle }] *)
Definition try_catch {A} (body handle : handler A) : handler A :=
  fun s =>
    match body s with
    | (Throw, s1, t1) =>
        match handle s1 with (c, s2, t2) => (c, s2, t1 ++ t2) end
    | r => r
    end.

(** [try { body } finally { fin }]: [fin] runs however [body] finishes, and
    the completion of [body] stands unless [fin] itself finishes abruptly. *)
Definition finally {A} (body : handler A) (fin : handler unit) : handler A :=
  fun s =>
    match body s with
    | (c, s1, t1) =>
        match fin s1 with
        | (Normal _, s2, t2) => (c, s2, t1 ++ t2)
        | (Return, s2, t2) => (Return, s2, t1 ++ t2)
        | (Throw, s2, t2) => (Throw, s2, t1 ++ t2)
        end
    end.

(** Running an event handler from the state of the current render: the
    state after all queued updates, and the trace. *)
Definition run {A} (h : handler A) (s : St) : St * list Ev :=
  match h s with (_, s1, t) => (s1, t) end.

End Monad.

Arguments handler : clear implicits.

Declare Scope handler_scope.
Delimit Scope handler_scope with handler.
Notation "x <- m ;; k" := (bind m (fun x => k))
  (at level 100, m at level 99, k at level 200, right associativity) : handler_scope.
Notation "m ;; k" := (bind m (fun _ => k))
  (at level 100, k at level 200, right associativity) : handler_scope.

End Handler.

(** ** What the environment answers to a request *)

Module Net.
Import Handler.

(** The address of a request: [`${API_BASE}/path`] for the configured API
    base ([import.meta.env.VITE_API_URL]), or a literal URL. *)
Inductive Url : Type :=
| ApiBase (path : string)
| Absolute (url : string).

(** A parsed JSON body as far as property access is concerned: reading a
    property of [null] throws, reading one of anything else yields the
    property or [undefined]. *)
Inductive Json (A : Type) : Type :=
| JsonNull
| JsonObj (d : A).

(** A response whose body may fail to parse ([res.json()] rejects). *)
Record Response (A : Type) : Type := mkResponse {
  ok : bool;
  body : option (Json A)
}.

(** The outcome of [await fetch(...)]: the promise rejects (transport
    failure) or resolves to a response. *)
Inductive FetchResult (A : Type) : Type :=
| Rejected
| Resolved (res : Response A).

Arguments JsonNull {A}.
Arguments JsonObj {A} d.
Arguments mkResponse {A} ok body.
Arguments ok {A} r.
Arguments body {A} r.
Arguments Rejected {A}.
Arguments Resolved {A} res.

Section Await.
Context {St Ev A : Type}.

(** [await fetch(...)]: the request goes out (the event [request]), then
    the environment's answer [net] decides between a rejection, which
    throws at the [await], and a response. *)
Definition fetch (request : Ev) (net : FetchResult A) : handler St Ev (Response A) :=
  (emit request ;;
   match net with
   | Rejected => throw
   | Resolved res => ret res
   end)%handler.

(** [await res.json()] *)
Definition json (res : Response A) : handler St Ev (Json A) :=
  match res.(body) with
  | Some data => ret data
  | None => throw
  end.

(** [await res.json().catch(() => ({}))], [empty] standing for [{}]. *)
Definition json_or (empty : A) (res : Response A) : Json A :=
  match res.(body) with
  | Some data => data
  | None => JsonObj empty
  end.

(** Reading a property of the parsed body: a [TypeError] on [null]. *)
Definition member {B} (data : Json A) (prop : A -> B) : handler St Ev B :=
  match data with
  | JsonNull => throw
  | JsonObj d => ret (prop d)
  end.

End Await.

(** A request fails when the promise is rejected, the answer is not a
    success, or its body cannot be read. *)
Definition failed {A} (net : FetchResult A) : bool :=
  match net with
  | Rejected => true
  | Resolved res =>
      negb res.(ok) || match res.(body) with None => true | Some _ => false end
  end.

End Net.

(** ** The intake form (PatientForm) *)

Module PatientForm.
Import JS Handler Net.
Local Open Scope handler_scope.

(** [keyof FormData]. *)
Inductive field : Type :=
| age | sex | cp | trestbps | chol | fbs | restecg
| thalach | exang | oldpeak | slope | ca | thal | target.

Definition field_name (f : field) : string :=
  match f with
  | age => "age" | sex => "sex" | cp => "cp" | trestbps => "trestbps"
  | chol => "chol" | fbs => "fbs" | restecg => "restecg"
  | thalach => "thalach" | exang => "exang" | oldpeak => "oldpeak"
  | slope => "slope" | ca => "ca" | thal => "thal" | target => "target"
  end.

(** [interface FormData]: one value per key, read as [formData[f]]. *)
Definition FormData : Type := field -> jsval.

Definition initialFormData : FormData := fun _ => JEmpty.

(** The body of a successful [/predict] answer, and the [error] member an
    unsuccessful one may carry. *)
Record PredictData : Type := mkPredictData {
  error : option string;
  prediction : Z;
  probability : option Q;
  model : string;
  record_id : option string
}.

(** The [useState] cells of the component. *)
Record State : Type := mkState {
  currentStep : Z;
  formData : FormData;
  result : option PredictData;      (* [null] is [None] *)
  loading : bool;
  fileResult : option string;
  fileLoading : bool
}.

Definition initialState : State :=
  mkState 1 initialFormData None false None false.

Definition setCurrentStep (f : Z -> Z) (s : State) : State :=
  mkState (f s.(currentStep)) s.(formData) s.(result) s.(loading)
          s.(fileResult) s.(fileLoading).

Definition setResult (r : option PredictData) (s : State) : State :=
  mkState s.(currentStep) s.(formData) r s.(loading)
          s.(fileResult) s.(fileLoading).

Definition setLoading (b : bool) (s : State) : State :=
  mkState s.(currentStep) s.(formData) s.(result) b
          s.(fileResult) s.(fileLoading).

Inductive Event : Type :=
| Alert (msg : string)
| ConsoleError (label : string)
| ScrollToTop
| Fetch (url : Url) (payload : gmap string jsval).

Definition M : Type -> Type := handler State Event.

Definition totalSteps : Z := 6.

Definition nextStep : M unit :=
  st <- get ;;
  if (st.(currentStep) <? totalSteps)%Z
  then modify (setCurrentStep (fun prev => prev + 1)%Z)
  else ret tt.

Definition prevStep : M unit :=
  st <- get ;;
  if (st.(currentStep) >? 1)%Z
  then modify (setCurrentStep (fun prev => prev - 1)%Z)
  else ret tt.

Definition requiredFields : list field :=
  [age; sex; cp; trestbps; chol; fbs; restecg; thalach; exang; oldpeak;
   slope; ca; thal].

(** [v === "" || v === null || v === undefined] *)
Definition is_blank (v : jsval) : bool :=
  match v with
  | JEmpty => true
  | JNull => true
  | JUndefined => true
  | JNum _ => false
  end.

Definition missingRequired (fd : FormData) : list field :=
  List.filter (fun f => is_blank (fd f)) requiredFields.

(** The [payload] object filled by [requiredFields.forEach]. *)
Definition build_payload (fd : FormData) : gmap string jsval :=
  foldl (fun payload f =>
           let val := fd f in
           <[field_name f := if is_blank val then JNull else JNum (ToNumber val)]> payload)
        ∅ requiredFields.

(** What [setResult(data)] stores. *)
Definition as_result (data : Json PredictData) : option PredictData :=
  match data with
  | JsonNull => None
  | JsonObj d => Some d
  end.

Definition handleSubmit (net : FetchResult PredictData) : M unit :=
  st <- get ;;
  let missing := missingRequired st.(formData) in
  if (0 <? List.length missing)%nat then
    emit (Alert ("Please fill required fields before submitting: "
                 ++ join ", " (map field_name missing))) ;;
    return_
  else
    modify (setLoading true) ;;
    modify (setResult None) ;;
    let payload := build_payload st.(formData) in
    finally
      (try_catch
         (res <- fetch (Fetch (ApiBase "/predict") payload) net ;;
          data <- json res ;;
          if negb res.(ok) then
            emit (ConsoleError "Server error:") ;;
            err <- member data error ;;
            emit (Alert (or_else err "Server returned an error")) ;;
            modify (setLoading false) ;;
            return_
          else
            modify (setResult (as_result data)) ;;
            emit ScrollToTop)
         (emit (ConsoleError "Fetch error:") ;;
          emit (Alert "Failed to connect to server. Make sure the backend is running.")))
      (modify (setLoading false)).

(** *** Vocabulary of the properties *)

(** A field value is blank when it is the empty string, [null] or
    [undefined]; the only other values are numbers. *)
Definition blank (v : jsval) : Prop := v = JEmpty \/ v = JNull \/ v = JUndefined.

(** Every clinical field (every key but the label) holds a number. *)
Definition all_set (fd : FormData) : Prop :=
  forall f, f <> target -> exists n, fd f = JNum n.

Definition is_Fetch (e : Event) : bool :=
  match e with Fetch _ _ => true | _ => false end.

Definition is_Alert (e : Event) : bool :=
  match e with Alert _ => true | _ => false end.

(** The number of network calls in a trace. *)
Definition requests (t : list Event) : nat := List.length (List.filter is_Fetch t).

(** The two navigation buttons. *)
Inductive nav : Type := Advance | Retreat.

Definition navigate (op : nav) : M unit :=
  match op with
  | Advance => nextStep
  | Retreat => prevStep
  end.

(** The state after a sequence of clicks, each handled in the render that
    follows the previous one. *)
Definition navigate_all (ops : list nav) (st : State) : State :=
  foldl (fun s op => fst (run (navigate op) s)) st ops.

(** *** Sample data *)

Definition sample_result : PredictData :=
  mkPredictData None 1 (Some (9 # 10)) "random_forest" (Some "rec-1").

Definition filled_form : FormData :=
  fun f => match f with target => JEmpty | _ => JNum (Num 1) end.

(** All thirteen fields filled, step six, an earlier prediction on display. *)
Definition shown_state : State :=
  mkState 6 filled_form (Some sample_result) false None false.

(** *** Further handlers of the form *)

Definition setFormData (f : FormData -> FormData) (s : State) : State :=
  mkState s.(currentStep) (f s.(formData)) s.(result) s.(loading)
          s.(fileResult) s.(fileLoading).

Definition setFileResult (r : option string) (s : State) : State :=
  mkState s.(currentStep) s.(formData) s.(result) s.(loading)
          r s.(fileLoading).

Definition setFileLoading (b : bool) (s : State) : State :=
  mkState s.(currentStep) s.(formData) s.(result) s.(loading)
          s.(fileResult) b.

#[global] Instance field_eq_dec : EqDecision field.
Proof. solve_decision. Defined.

Definition numericFields : list field :=
  [age; sex; cp; trestbps; chol; fbs; restecg; thalach; exang; oldpeak;
   slope; ca; thal; target].

Section InputChange.

(** [Number(value)] on the text of an input element (ECMAScript's
    StringToNumber), left open: the properties hold whatever it reads. *)
Variable StringToNumber : string -> number.

(** [handleInputChange(field, value)].  Every key is in [numericFields], so
    the branch that stores [value] itself is only taken with the empty
    string, which is what [JEmpty] stands for. *)
Definition handleInputChange (f : field) (value : string) : M unit :=
  let newValue :=
    if (existsb (fun g => bool_decide (g = f)) numericFields
        && negb (String.eqb value ""))%bool
    then JNum (StringToNumber value)
    else JEmpty in
  modify (setFormData (fun prev g => if decide (g = f) then newValue else prev g)).

(** What an edit leaves in the field: the empty string for empty text, a
    number for any other text. *)
Definition typed (v : string) : jsval :=
  if String.eqb v "" then JEmpty else JNum (StringToNumber v).

(** A sequence of edits, each handled in the render after the previous. *)
Definition type_all (edits : list (field * string)) (st : State) : State :=
  foldl (fun s e => fst (run (handleInputChange e.1 e.2) s)) st edits.

End InputChange.

(** The text last typed into [f] in a sequence of edits, if any. *)
Fixpoint last_edit (f : field) (edits : list (field * string)) : option string :=
  match edits with
  | [] => None
  | (g, v) :: rest =>
      match last_edit f rest with
      | Some w => Some w
      | None => if decide (g = f) then Some v else None
      end
  end.

(** The answer of [/predict-file]: its [error] member, and the rest of the
    object as the text the component keeps in [fileResult]. *)
Record UploadData : Type := mkUploadData {
  upload_error : option string;
  upload_body : string
}.

(** The events of the upload handler: those of the form, and the multipart
    request carrying the chosen file. *)
Inductive UploadEvent : Type :=
| FormEvent (e : Event)
| PostFile (url : Url) (file : string).

Definition handleFileUpload (file : string) (net : FetchResult UploadData)
    : handler State UploadEvent unit :=
  modify (setFileLoading true) ;;
  modify (setFileResult None) ;;
  finally
    (try_catch
       (res <- fetch (PostFile (ApiBase "/predict-file") file) net ;;
        data <- json res ;;
        if negb res.(ok) then
          emit (FormEvent (ConsoleError "Upload error:")) ;;
          err <- member data upload_error ;;
          emit (FormEvent (Alert (or_else err "Upload failed"))) ;;
          modify (setFileLoading false) ;;
          return_
        else
          modify (setFileResult
                    match data with
                    | JsonNull => None
                    | JsonObj d => Some d.(upload_body)
                    end) ;;
          emit (FormEvent ScrollToTop))
       (emit (FormEvent (ConsoleError "Upload error")) ;;
        emit (FormEvent (Alert "Unable to upload file. Check console."))))
    (modify (setFileLoading false)).

(** The alerts of a trace, in order. *)
Definition alerts (t : list Event) : list string :=
  omap (fun e => match e with Alert m => Some m | _ => None end) t.

(** The alerts and the file requests of an upload trace. *)
Definition upload_alerts (t : list UploadEvent) : list string :=
  omap (fun e => match e with FormEvent (Alert m) => Some m | _ => None end) t.

Definition uploads (t : list UploadEvent) : list (Url * string) :=
  omap (fun e => match e with PostFile u f => Some (u, f) | _ => None end) t.

(** *** Further sample data *)

(** The same form with the label chosen as well. *)
Definition labelled_form : FormData :=
  fun f => match f with target => JNum (Num 1) | _ => filled_form f end.

Definition labelled_state : State :=
  mkState 6 labelled_form (Some sample_result) false None false.

(** One edit per clinical field, one of them not a numeral, after a first
    attempt at the age that was wiped again. *)
Definition sample_edits : list (field * string) :=
  [(age, "54"); (age, ""); (sex, "1"); (cp, "2"); (trestbps, "130");
   (chol, "abc"); (fbs, "0"); (restecg, "1"); (thalach, "150"); (exang, "0");
   (oldpeak, "1"); (slope, "2"); (ca, "0"); (thal, "3"); (age, "55")].

(** A reading of unsigned decimal numerals, for the sample edits. *)
Definition digit_of (c : ascii) : option Z :=
  let n := nat_of_ascii c in
  if (48 <=? n)%nat && (n <=? 57)%nat then Some (Z.of_nat (n - 48)) else None.

Fixpoint read_digits (acc : Z) (s : string) : option Z :=
  match s with
  | EmptyString => Some acc
  | String c rest =>
      match digit_of c with
      | Some d => read_digits (10 * acc + d) rest
      | None => None
      end
  end.

Definition decimal (s : string) : number :=
  match s with
  | EmptyString => Num 0
  | _ => match read_digits 0 s with
         | Some z => Num (inject_Z z)
         | None => NaN
         end
  end.

End PatientForm.

(** ** The doctor login (DoctorLogin), file-based auth version *)

Module DoctorLogin.
Import JS Handler Net.
Local Open Scope handler_scope.

(** An object handed to [JSON.stringify]: its members in order. *)
Inductive JsObject : Type :=
| Obj (members : list (string * string)).

(** The members of the login answer the handler looks at.  A member that
    is absent (or [null]) is [None]; [user], when present, is an object. *)
Record LoginData : Type := mkLoginData {
  token : option string;
  user : option JsObject;
  ok_flag : bool;                   (* [data.ok] *)
  username : option string;
  next : option string;
  error : option string;
  message : option string
}.

(** [{}] *)
Definition emptyData : LoginData :=
  mkLoginData None None false None None None None.

Record State : Type := mkState {
  email : string;
  password : string;
  showPwd : bool;
  loading : bool;
  error_msg : option string;        (* the [error] cell *)
  remember : bool
}.

Definition initialState : State := mkState "" "" false false None true.

Definition setLoading (b : bool) (s : State) : State :=
  mkState s.(email) s.(password) s.(showPwd) b s.(error_msg) s.(remember).

Definition setError (e : option string) (s : State) : State :=
  mkState s.(email) s.(password) s.(showPwd) s.(loading) e s.(remember).

Inductive Storage : Type := localStorage | sessionStorage.

Inductive StoredValue : Type :=
| Verbatim (s : string)
| Stringify (o : JsObject).          (* [JSON.stringify(o)] *)

Inductive Event : Type :=
| PreventDefault
| ConsoleError (label : string)
| Fetch (url : Url) (body : list (string * string))
| SetItem (store : Storage) (key : string) (value : StoredValue)
| Navigate (to : string).

Definition M : Type -> Type := handler State Event.

Definition validate (st : State) : option string :=
  if String.eqb st.(email) "" then Some "Please enter email or username."
  else if String.eqb st.(password) "" then Some "Please enter password."
  else None.

(** The storage the [remember] box selects. *)
Definition chosen (st : State) : Storage :=
  if st.(remember) then localStorage else sessionStorage.

(** A string member read in a condition: [Some] exactly when truthy. *)
Definition if_truthy (o : option string) : option string :=
  if truthy o then o else None.

Definition handleSubmit (e : bool) (net : FetchResult LoginData) : M unit :=
  st <- get ;;
  (if e then emit PreventDefault else ret tt) ;;
  modify (setError None) ;;
  match validate st with
  | Some v => modify (setError (Some v)) ;; return_
  | None =>
    modify (setLoading true) ;;
    finally
      (try_catch
         (res <- fetch (Fetch (ApiBase "/auth/login-file")
                          [("username", trim st.(email));
                           ("password", st.(password))]) net ;;
          let data := json_or emptyData res in
          if negb res.(ok) then
            err <- member data error ;;
            msg <- member data message ;;
            modify (setError
                      (Some (or_else (or_opt err msg)
                                     "Login failed. Check credentials."))) ;;
            modify (setLoading false) ;;
            return_
          else
            tok <- member data token ;;
            match if_truthy tok with
            | Some t =>
                emit (SetItem (chosen st) "authToken" (Verbatim t)) ;;
                usr <- member data user ;;
                match usr with
                | Some u => emit (SetItem localStorage "authUser" (Stringify u))
                | None => ret tt
                end ;;
                emit (Navigate "/doctor/dashboard") ;;
                return_
            | None =>
                flag <- member data ok_flag ;;
                name <- member data username ;;
                if (flag || truthy name)%bool then
                  emit (SetItem localStorage "authUser"
                          (Stringify (Obj [("username",
                                            or_else name (trim st.(email)))]))) ;;
                  emit (SetItem (chosen st) "authRemember" (Verbatim "1")) ;;
                  nxt <- member data next ;;
                  emit (Navigate (or_else nxt "/doctor/dashboard")) ;;
                  return_
                else
                  modify (setError
                            (Some "Login succeeded but response shape unexpected. Check backend."))
            end)
         (emit (ConsoleError "Login error:") ;;
          modify (setError
                    (Some "Network error while logging in. Is the backend running?"))))
      (modify (setLoading false))
  end.

Definition fillDemo : M unit :=
  modify (fun s => mkState "dr_raj" "mySecretPass123" s.(showPwd) s.(loading)
                           None s.(remember)).

(** *** Vocabulary of the properties *)

(** The number of network calls in a trace. *)
Definition sent (t : list Event) : nat :=
  List.length
    (List.filter (fun e => match e with Fetch _ _ => true | _ => false end) t).

(** The trace left by [e.preventDefault()], when an event was passed. *)
Definition prevented (e : bool) : list Event :=
  if e then [PreventDefault] else [].

(** A successful answer carrying the parsed object [d]. *)
Definition success (d : LoginData) : FetchResult LoginData :=
  Resolved (mkResponse true (Some (JsonObj d))).

(** *** Sample data *)

(** [{ok: true, username: "dr_raj"}] *)
Definition flag_answer : LoginData :=
  mkLoginData None None true (Some "dr_raj") None None None.

(** [{token: "abc123", user: {name: "Raj"}}] *)
Definition token_answer : LoginData :=
  mkLoginData (Some "abc123") (Some (Obj [("name", "Raj")])) false None None None None.

Definition demo_state : State :=
  mkState "dr_raj" "mySecretPass123" false false None true.

Definition no_password_state : State :=
  mkState "dr_raj" "" false false None true.

(** *** Further vocabulary *)

(** The storage writes of a trace, in order. *)
Definition writes (t : list Event) : list (Storage * string * StoredValue) :=
  omap (fun e => match e with SetItem s k v => Some (s, k, v) | _ => None end) t.

(** The navigations of a trace, in order. *)
Definition navigations (t : list Event) : list string :=
  omap (fun e => match e with Navigate to => Some to | _ => None end) t.


(** The answers the file-based version acts on: a success whose object
    has a truthy [token], [ok] or [username]. *)
Definition accepted_file (net : FetchResult LoginData) : bool :=
  match net with
  | Resolved (mkResponse true (Some (JsonObj d))) =>
      truthy (token d) || ok_flag d || truthy (username d)
  | _ => false
  end.

(** The answers the token-only version acts on. *)
Definition accepted_token (net : FetchResult LoginData) : bool :=
  match net with
  | Resolved (mkResponse true (Some (JsonObj d))) => truthy (token d)
  | _ => false
  end.

(** Both credentials are filled in. *)
Definition filled (st : State) : Prop := email st <> "" /\ password st <> "".

(** *** Further sample data *)

(** [{error: "locked", message: "try later"}] *)
Definition both_texts : LoginData :=
  mkLoginData None None false None None (Some "locked") (Some "try later").

(** The remember box unchecked. *)
Definition forgetful_state : State :=
  mkState "dr_raj" "mySecretPass123" false false (Some "old error") false.


(** An answer that is not a success, carrying the parsed object [d]. *)
Definition refusal (d : LoginData) : FetchResult LoginData :=
  Resolved (mkResponse false (Some (JsonObj d))).

End DoctorLogin.

(** ** The doctor login, token-only version *)

Module DoctorLoginToken.
Import JS Handler Net.
Import DoctorLogin.
Local Open Scope handler_scope.

Definition validate (st : State) : option string :=
  if String.eqb st.(email) "" then Some "Please enter email or username."
  else if String.eqb st.(password) "" then Some "Please enter password."
  else None.

Definition handleSubmit (e : bool) (net : FetchResult LoginData) : M unit :=
  st <- get ;;
  (if e then emit PreventDefault else ret tt) ;;
  modify (setError None) ;;
  match validate st with
  | Some v => modify (setError (Some v)) ;; return_
  | None =>
    modify (setLoading true) ;;
    finally
      (try_catch
         (res <- fetch (Fetch (Absolute "http://127.0.0.1:5001/auth/login")
                          [("email", trim st.(email));
                           ("password", st.(password))]) net ;;
          let data := json_or emptyData res in
          if negb res.(ok) then
            msg <- member data message ;;
            err <- member data error ;;
            modify (setError
                      (Some (or_else (or_opt msg err)
                                     "Login failed. Check credentials."))) ;;
            modify (setLoading false) ;;
            return_
          else
            tok <- member data token ;;
            match if_truthy tok with
            | None =>
                modify (setError
                          (Some "Login succeeded but token missing. Check backend.")) ;;
                modify (setLoading false) ;;
                return_
            | Some t =>
                emit (SetItem (chosen st) "authToken" (Verbatim t)) ;;
                usr <- member data user ;;
                emit (SetItem localStorage "authUser"
                        (Stringify (default (Obj []) usr))) ;;
                emit (Navigate "/doctor/dashboard")
            end)
         (emit (ConsoleError "Login error:") ;;
          modify (setError
                    (Some "Network error while logging in. Is the backend running?"))))
      (modify (setLoading false))
  end.

Definition fillDemo : M unit :=
  modify (fun s => mkState "dr_demo" "demo1234" s.(showPwd) s.(loading)
                           None s.(remember)).

End DoctorLoginToken.

(** ** The doctor dashboard (DoctorDashboard) *)

Module DoctorDashboard.
Import JS Handler Net.
Local Open Scope handler_scope.

(** [type RecordType].  [input] is [None] when the member is missing or
    [null] (the code reads [rec.input || {}]); [probability] is a number or
    [null]. *)
Record RecordType : Type := mkRecord {
  _id : string;
  input : option (gmap string jsval);
  prediction : Z;
  probability : jsval;
  model : string;
  timestamp : option string
}.

Record State : Type := mkState {
  records : list RecordType;
  loading : bool;
  selectedId : string;
  notesText : string;
  saving : bool;
  message : option string
}.

Definition initialState : State := mkState [] false "" "" false None.

Definition setRecords (r : list RecordType) (s : State) : State :=
  mkState r s.(loading) s.(selectedId) s.(notesText) s.(saving) s.(message).

Definition setLoading (b : bool) (s : State) : State :=
  mkState s.(records) b s.(selectedId) s.(notesText) s.(saving) s.(message).

Definition setSelectedId (i : string) (s : State) : State :=
  mkState s.(records) s.(loading) i s.(notesText) s.(saving) s.(message).

Definition setNotesText (t : string) (s : State) : State :=
  mkState s.(records) s.(loading) s.(selectedId) t s.(saving) s.(message).

Definition setSaving (b : bool) (s : State) : State :=
  mkState s.(records) s.(loading) s.(selectedId) s.(notesText) b s.(message).

Definition setMessage (m : option string) (s : State) : State :=
  mkState s.(records) s.(loading) s.(selectedId) s.(notesText) s.(saving) m.

(** The body of the note request. *)
Record NoteBody : Type := mkNoteBody {
  doctor : string;
  note : string;
  suggested_by_ai : string
}.

Inductive Event : Type :=
| ConsoleError (label : string)
| FetchRecords (url : Url)
| PostNote (url : Url) (body : NoteBody).

Definition M : Type -> Type := handler State Event.

(** The answer of [GET /records]: [data.records], absent as [None]. *)
Record RecordsData : Type := mkRecordsData {
  data_records : option (list RecordType)
}.

Definition fetchRecords (net : FetchResult RecordsData) : M unit :=
  modify (setLoading true) ;;
  finally
    (try_catch
       (res <- fetch (FetchRecords (Absolute "http://127.0.0.1:5001/records")) net ;;
        data <- json res ;;
        if res.(ok) then
          recs <- member data data_records ;;
          modify (setRecords (default [] recs))
        else ret tt)
       (emit (ConsoleError "Failed to fetch records")))
    (modify (setLoading false)).

Definition onRowClick (r : RecordType) : M unit :=
  modify (setSelectedId r.(_id)) ;;
  modify (setNotesText "") ;;
  modify (setMessage None).

(** [inp.key]: the member, or [undefined]. *)
Definition prop (inp : gmap string jsval) (key : string) : jsval :=
  default JUndefined (inp !! key).

Definition highCholesterol : string :=
  "High cholesterol — suggest lipid profile & diet change.".
Definition highBP : string :=
  "High BP — consider antihypertensive review.".
Definition stDepression : string :=
  "Significant ST depression — cardiology consultation recommended.".
Definition highProbability : string :=
  "High model probability — prioritize follow-up soon.".

(** [sug.push(s)] under a condition. *)
Definition push_if (c : bool) (s : string) (sug : list string) : list string :=
  if c then sug ++ [s] else sug.

(** The [useMemo] over [selectedId] and [records]. *)
Definition aiSuggestion (selectedId : string) (records : list RecordType) : string :=
  if String.eqb selectedId "" then ""
  else
    match List.find (fun x => String.eqb x.(_id) selectedId) records with
    | None => ""
    | Some rec =>
        let inp := default ∅ rec.(input) in
        let sug := [] in
        let sug := push_if (ge (prop inp "chol") 240) highCholesterol sug in
        let sug := push_if (ge (prop inp "trestbps") 140) highBP sug in
        let sug := push_if (ge (prop inp "oldpeak") 2) stDepression sug in
        let sug := push_if (ge rec.(probability) (8 # 10)) highProbability sug in
        join " " (slice0 4 sug)
    end.

Definition saveNote (net : FetchResult unit) : M unit :=
  st <- get ;;
  if String.eqb st.(selectedId) "" then
    modify (setMessage (Some "Select a record first.")) ;;
    return_
  else if String.eqb (trim st.(notesText)) "" then
    modify (setMessage (Some "Write a note first.")) ;;
    return_
  else
    modify (setSaving true) ;;
    finally
      (try_catch
         (res <- fetch (PostNote
                          (Absolute ("http://127.0.0.1:5001/records/"
                                     ++ st.(selectedId) ++ "/notes"))
                          (mkNoteBody "doctor" st.(notesText)
                             (aiSuggestion st.(selectedId) st.(records)))) net ;;
          data <- json res ;;
          if negb res.(ok)
          then modify (setMessage (Some "Failed to save note"))
          else modify (setMessage (Some "Note saved successfully")))
         (modify (setMessage (Some "Network error while saving note."))))
      (modify (setSaving false)).

(** *** Vocabulary of the properties *)

(** [rec] is the record the identifier [sel] selects in [recs]: [sel] is
    not empty and [rec] is the first record carrying it. *)
Definition selects (sel : string) (recs : list RecordType) (rec : RecordType) : Prop :=
  sel <> ""
  /\ exists before after,
       recs = before ++ rec :: after
       /\ Forall (fun r => _id r <> sel) before
       /\ _id rec = sel.

(** [v >= t] holds in JavaScript: [v] coerces to a number, and that number
    is at least [t]. *)
Definition meets (v : jsval) (t : Q) : Prop :=
  exists q, ToNumber v = Num q /\ (t <= q)%Q.

(** The clinical members the rules read. *)
Definition chol_of (rec : RecordType) : jsval :=
  prop (default ∅ rec.(input)) "chol".
Definition trestbps_of (rec : RecordType) : jsval :=
  prop (default ∅ rec.(input)) "trestbps".
Definition oldpeak_of (rec : RecordType) : jsval :=
  prop (default ∅ rec.(input)) "oldpeak".

(** The sentences of the rules that fire, in rule order: cholesterol,
    resting blood pressure, ST depression, model probability. *)
Definition fired (c b o p : bool) : list string :=
  (if c then [highCholesterol] else [])
  ++ (if b then [highBP] else [])
  ++ (if o then [stDepression] else [])
  ++ (if p then [highProbability] else []).

(** The literal [0.8] denotes the double nearest to 8/10, which is this
    rational; the model compares against 8/10 itself. *)
Definition double_08 : Q := 7205759403792794 # 9007199254740992.

(** *** Sample data *)

Definition clinical (c b o : Q) : option (gmap string jsval) :=
  Some (list_to_map [("age", JNum (Num 54)); ("chol", JNum (Num c));
                     ("trestbps", JNum (Num b)); ("oldpeak", JNum (Num o))]).

(** All four rules fire. *)
Definition high_risk : RecordType :=
  mkRecord "r-high" (clinical 250 150 (5 # 2)) 1 (JNum (Num (9 # 10)))
           "random_forest" None.

(** Cholesterol 250, resting blood pressure 130, ST depression 1.0,
    probability 0.5: only the cholesterol rule fires. *)
Definition chol_only : RecordType :=
  mkRecord "r-chol" (clinical 250 130 1) 0 (JNum (Num (5 # 10)))
           "random_forest" None.

(** A record stored without a probability. *)
Definition no_probability : RecordType :=
  mkRecord "r-null" (clinical 250 150 (5 # 2)) 1 JNull "random_forest" None.

Definition sample_records : list RecordType :=
  [chol_only; high_risk; no_probability].

Definition noting_state : State :=
  mkState sample_records false "r-high" "follow up in two weeks" false None.

(** *** Further handlers of the dashboard *)



(** [disabled={!aiSuggestion}] *)
Definition insertDisabled (st : State) : bool :=
  String.eqb (aiSuggestion st.(selectedId) st.(records)) "".



Definition gets (t : list Event) : list Url :=
  omap (fun e => match e with FetchRecords u => Some u | _ => None end) t.

(** A readable success answer of [GET /records]. *)
Definition listing (recs : option (list RecordType)) : FetchResult RecordsData :=
  Resolved (mkResponse true (Some (JsonObj (mkRecordsData recs)))).

End DoctorDashboard.

(** ** The risk overview (RiskDashboard) *)

Module RiskDashboard.

(** [selectedFactor === name], the selection being a name or [null]. *)
Definition is_selected (selectedFactor : option string) (name : string) : bool :=
  match selectedFactor with
  | Some s => String.eqb s name
  | None => false
  end.

(** The click handler of a factor card:
    [setSelectedFactor(selectedFactor === factor.name ? null : factor.name)]. *)
Definition clickFactor (name : string) (selectedFactor : option string)
    : option string :=
  if is_selected selectedFactor name then None else Some name.

(** A sequence of clicks, each seeing the selection the previous left. *)
Definition click_all (names : list string) (selectedFactor : option string)
    : option string :=
  foldl (fun sel name => clickFactor name sel) selectedFactor names.

(** The factors whose description is rendered. *)
Definition expanded (factors : list string) (selectedFactor : option string)
    : list string :=
  List.filter (is_selected selectedFactor) factors.

(** The names of [mockRiskData.factors]. *)
Definition factor_names : list string :=
  ["Age"; "Blood Pressure"; "Cholesterol"; "Exercise Capacity"; "ECG Results"].

End RiskDashboard.

(** * Properties *)

Import JS Handler Net.

(** Unfolds the monad's combinators, so that a handler run becomes a plain
    term over the state and the answer of the environment. *)
Ltac unfold_handler :=
  cbv [run bind ret get modify emit return_ throw try_catch finally
       fetch json json_or member].

Lemma truthy_Some (s : string) : truthy (Some s) = true <-> s <> "".
Proof.
  unfold truthy.
  destruct (String.eqb_spec s ""); simpl; split; intros; congruence.
Qed.

Lemma substring_here (s rest : string) :
  substring 0 (String.length s) (s ++ rest)%string = s.
Proof.
  induction s as [|c s IH]; simpl.
  - destruct rest; reflexivity.
  - rewrite IH. reflexivity.
Qed.

Lemma substring_skip (before s : string) (n : nat) :
  substring (String.length before) n (before ++ s)%string = substring 0 n s.
Proof. induction before as [|c before IH]; simpl; [reflexivity | exact IH]. Qed.

(** The boolean test [includes] is sound for "does not occur". *)
Lemma includes_false (hay needle : string) :
  includes hay needle = false -> ~ occurs needle hay.
Proof.
  unfold includes. destruct (String.index 0 needle hay) eqn:E; [discriminate |].
  intros _ (before & after & ->).
  destruct needle as [|c needle].
  - apply index_correct4 in E. lia.
  - apply (index_correct3 0 (String.length before)) in E; [| discriminate | lia].
    apply E. rewrite substring_skip. apply substring_here.
Qed.

(** ** The intake form *)

Section PatientFormFacts.
Import PatientForm.

Lemma is_blank_spec (v : jsval) : is_blank v = true <-> blank v.
Proof.
  unfold blank. destruct v; simpl; split; intros H; auto; try discriminate.
  destruct H as [H | [H | H]]; discriminate.
Qed.

Lemma blank_not_number (v : jsval) : blank v <-> ~ exists n, v = JNum n.
Proof.
  unfold blank. destruct v; split; intros H; auto;
    try (intros [n Hn]; discriminate).
  - destruct H as [H | [H | H]]; discriminate.
  - exfalso. apply H. eauto.
Qed.

Lemma requiredFields_spec (f : field) : In f requiredFields <-> f <> target.
Proof.
  unfold requiredFields.
  destruct f; simpl; split; intros H; try congruence; try tauto.
  intuition discriminate.
Qed.

Lemma requiredFields_NoDup : List.NoDup requiredFields.
Proof.
  unfold requiredFields.
  repeat (apply List.NoDup_cons; [simpl; intuition discriminate |]).
  apply List.NoDup_nil.
Qed.

Lemma missingRequired_In (fd : FormData) (f : field) :
  In f (missingRequired fd) <-> f <> target /\ blank (fd f).
Proof.
  unfold missingRequired.
  rewrite filter_In, requiredFields_spec, is_blank_spec. reflexivity.
Qed.

Lemma all_set_missing (fd : FormData) : all_set fd <-> missingRequired fd = [].
Proof.
  split.
  - intros H. destruct (missingRequired fd) as [|f rest] eqn:E; [reflexivity |].
    assert (Hin : In f (missingRequired fd)) by (rewrite E; left; reflexivity).
    apply missingRequired_In in Hin as [Hf Hb].
    apply blank_not_number in Hb. destruct Hb. auto.
  - intros E f Hf.
    destruct (fd f) as [ | | |n] eqn:Ef; eauto; exfalso;
      assert (Hin : In f (missingRequired fd))
        by (apply missingRequired_In; split;
            [exact Hf | unfold blank; rewrite Ef; auto]);
      rewrite E in Hin; destruct Hin.
Qed.

Lemma filled_form_all_set : all_set filled_form.
Proof.
  intros f Hf. destruct f; try (exists (Num 1); reflexivity). congruence.
Defined.

(** With a field missing the handler stops at the guard. *)
Lemma handleSubmit_blocked (st : State) (net : FetchResult PredictData) :
  missingRequired st.(formData) <> [] ->
  run (handleSubmit net) st
  = (st, [Alert ("Please fill required fields before submitting: "
                 ++ join ", " (map field_name (missingRequired st.(formData))))]).
Proof.
  intros Hne. unfold handleSubmit. unfold_handler.
  destruct (missingRequired (formData st)) as [|f rest]; [contradiction |].
  reflexivity.
Qed.

(** With nothing missing exactly one request goes out, first in the trace. *)
Lemma handleSubmit_requests (st : State) (net : FetchResult PredictData) :
  missingRequired st.(formData) = [] ->
  requests (snd (run (handleSubmit net) st)) = 1%nat
  /\ hd_error (snd (run (handleSubmit net) st))
     = Some (Fetch (ApiBase "/predict") (build_payload st.(formData))).
Proof.
  intros He. unfold handleSubmit. unfold_handler. rewrite He. simpl.
  destruct net as [|[o [[|d]|]]]; simpl; try (destruct o; simpl); auto.
Qed.

Lemma navigate_range (op : nav) (st : State) :
  (1 <= currentStep st <= 6)%Z ->
  (1 <= currentStep (fst (run (navigate op) st)) <= 6)%Z.
Proof.
  intros H. destruct op; unfold navigate, nextStep, prevStep, totalSteps;
    unfold_handler.
  - destruct (Z.ltb_spec (currentStep st) 6); simpl; lia.
  - destruct (Z.gtb_spec (currentStep st) 1); simpl; lia.
Qed.

Lemma navigate_all_range (ops : list nav) (st : State) :
  (1 <= currentStep st <= 6)%Z ->
  (1 <= currentStep (navigate_all ops st) <= 6)%Z.
Proof.
  revert st. induction ops as [|op ops IH]; intros st H; simpl; [exact H |].
  apply IH, navigate_range, H.
Qed.

Lemma build_payload_lookup (fd : FormData) (f : field) (n : number) :
  f <> target -> fd f = JNum n ->
  build_payload fd !! field_name f = Some (JNum n).
Proof.
  intros Hf Hn. destruct f; try congruence; vm_compute; rewrite Hn; reflexivity.
Qed.

Lemma build_payload_keys (fd : FormData) :
  dom (build_payload fd) =@{gset string}
    list_to_set ["age"; "sex"; "cp"; "trestbps"; "chol"; "fbs"; "restecg";
                 "thalach"; "exang"; "oldpeak"; "slope"; "ca"; "thal"]
  /\ size (build_payload fd) = 13%nat
  /\ build_payload fd !! "target" = None.
Proof. repeat split; vm_compute; reflexivity. Qed.

End PatientFormFacts.

Section PatientFormClaims.
Import PatientForm.

(** C1.  Whatever the thirteen clinical fields hold, the derived
    missing-fields list has no repetition and contains exactly the
    clinical fields that are blank; submitting issues a network call if and
    only if that list is empty; and when it is not empty, the handler only
    alerts the names of the missing fields, comma-separated, and leaves the
    state as it was. *)
Theorem missing_fields_guard (st : State) (net : FetchResult PredictData) :
  let missing := missingRequired st.(formData) in
  List.NoDup missing
  /\ (forall f, In f missing <-> f <> target /\ blank (st.(formData) f))
  /\ (requests (snd (run (handleSubmit net) st)) <> 0%nat <-> missing = [])
  /\ (missing <> [] ->
      run (handleSubmit net) st
      = (st, [Alert ("Please fill required fields before submitting: "
                     ++ join ", " (map field_name missing))])).
Proof.
  intros missing. subst missing. split; [| split; [| split; [split |]]].
  - unfold missingRequired. apply List.NoDup_filter, requiredFields_NoDup.
  - intros f. apply missingRequired_In.
  - intros Hreq. destruct (missingRequired (formData st)) as [|f rest] eqn:E;
      [reflexivity |].
    exfalso. apply Hreq.
    rewrite handleSubmit_blocked by (rewrite E; discriminate). reflexivity.
  - intros E. destruct (handleSubmit_requests st net E) as [-> _]. discriminate.
  - apply handleSubmit_blocked.
Qed.

Lemma missing_fields_guard_witness :
  missingRequired (formData initialState) <> []
  /\ run (handleSubmit Rejected) initialState
     = (initialState,
        [Alert "Please fill required fields before submitting: age, sex, cp, trestbps, chol, fbs, restecg, thalach, exang, oldpeak, slope, ca, thal"])
  /\ missingRequired (formData shown_state) = []
  /\ requests (snd (run (handleSubmit Rejected) shown_state)) <> 0%nat.
Proof.
  split; [discriminate |]. split; [| split; [reflexivity |]].
  - apply (proj2 (proj2 (proj2 (missing_fields_guard initialState Rejected)))).
    discriminate.
  - apply (proj1 (proj2 (proj2 (missing_fields_guard shown_state Rejected)))).
    reflexivity.
Defined.

(** C3.  Starting from step 1, any sequence of advance and retreat clicks
    leaves the current step between 1 and 6; advancing at step 6 and
    retreating at step 1 change nothing; below 6 advancing adds one, above
    1 retreating subtracts one; and navigation never touches the fields. *)
Theorem step_stays_in_range :
  (forall ops, (1 <= currentStep (navigate_all ops initialState) <= 6)%Z)
  /\ (forall st, currentStep st = 6%Z -> run nextStep st = (st, []))
  /\ (forall st, currentStep st = 1%Z -> run prevStep st = (st, []))
  /\ (forall st, (currentStep st < 6)%Z ->
        currentStep (fst (run nextStep st)) = (currentStep st + 1)%Z)
  /\ (forall st, (currentStep st > 1)%Z ->
        currentStep (fst (run prevStep st)) = (currentStep st - 1)%Z)
  /\ (forall op st, formData (fst (run (navigate op) st)) = formData st).
Proof.
  split; [| split; [| split; [| split; [| split]]]].
  - intros ops. apply (navigate_all_range ops initialState). simpl. lia.
  - intros st H. unfold nextStep, totalSteps. unfold_handler.
    rewrite H. reflexivity.
  - intros st H. unfold prevStep. unfold_handler. rewrite H. reflexivity.
  - intros st H. unfold nextStep, totalSteps. unfold_handler.
    destruct (Z.ltb_spec (currentStep st) 6); [reflexivity | lia].
  - intros st H. unfold prevStep. unfold_handler.
    destruct (Z.gtb_spec (currentStep st) 1); [reflexivity | lia].
  - intros op st. destruct op; unfold navigate, nextStep, prevStep;
      unfold_handler.
    + destruct (currentStep st <? totalSteps)%Z; reflexivity.
    + destruct (currentStep st >? 1)%Z; reflexivity.
Qed.

Lemma step_stays_in_range_witness :
  (1 <= currentStep
          (navigate_all [Retreat; Advance; Advance; Advance; Advance; Advance;
                         Advance; Advance; Retreat] initialState) <= 6)%Z
  /\ run nextStep shown_state = (shown_state, [])
  /\ run prevStep initialState = (initialState, [])
  /\ currentStep (fst (run nextStep initialState)) = 2%Z
  /\ currentStep (fst (run prevStep shown_state)) = 5%Z.
Proof.
  destruct step_stays_in_range as (Hall & Hlast & Hfirst & Hnext & Hprev & _).
  split; [apply Hall |].
  split; [apply Hlast; reflexivity |].
  split; [apply Hfirst; reflexivity |].
  split; [apply (Hnext initialState); reflexivity
         | apply (Hprev shown_state); reflexivity].
Defined.

(** C6, as the code has it.  When every clinical field is set and the
    submission fails (the request is rejected, the answer is not a success,
    or its body cannot be read), an alert is shown, exactly one request
    was issued, and the fields, the current step and the file-upload cells
    are what they were; the prediction result is empty afterwards and the
    loading flag is off. *)
Theorem failed_submission_keeps_fields
    (st : State) (net : FetchResult PredictData) :
  all_set st.(formData) ->
  failed net = true ->
  let st' := fst (run (handleSubmit net) st) in
  let trace := snd (run (handleSubmit net) st) in
  existsb is_Alert trace = true
  /\ requests trace = 1%nat
  /\ formData st' = formData st
  /\ currentStep st' = currentStep st
  /\ fileResult st' = fileResult st
  /\ fileLoading st' = fileLoading st
  /\ result st' = None
  /\ loading st' = false.
Proof.
  intros Hall Hfail. apply all_set_missing in Hall.
  unfold handleSubmit. unfold_handler. rewrite Hall. simpl.
  destruct net as [|[o [[|d]|]]]; simpl in *.
  - repeat split.
  - destruct o; [discriminate |]. repeat split.
  - destruct o; [discriminate |]. repeat split.
  - destruct o; repeat split.
Qed.

Lemma failed_submission_keeps_fields_witness :
  all_set (formData shown_state)
  /\ failed (@Rejected PredictData) = true
  /\ snd (run (handleSubmit Rejected) shown_state)
     = [Fetch (ApiBase "/predict") (build_payload filled_form);
        ConsoleError "Fetch error:";
        Alert "Failed to connect to server. Make sure the backend is running."]
  /\ formData (fst (run (handleSubmit Rejected) shown_state)) = filled_form
  /\ currentStep (fst (run (handleSubmit Rejected) shown_state)) = 6%Z.
Proof.
  split; [exact filled_form_all_set |]. split; [reflexivity |].
  split; [reflexivity |].
  destruct (failed_submission_keeps_fields shown_state Rejected
              filled_form_all_set eq_refl) as (_ & _ & Hfd & Hstep & _).
  split; [exact Hfd | exact Hstep].
Defined.

(** C6, as stated, fails: with all fields set and a prediction on display,
    a rejected request leaves the result cell empty, so the displayed
    prediction is not what it was before the submission. *)
Lemma failed_submission_clears_result :
  all_set (formData shown_state)
  /\ failed (@Rejected PredictData) = true
  /\ result shown_state = Some sample_result
  /\ result (fst (run (handleSubmit Rejected) shown_state)) = None
  /\ result (fst (run (handleSubmit Rejected) shown_state)) <> result shown_state.
Proof.
  split; [exact filled_form_all_set |].
  split; [reflexivity |]. split; [reflexivity |]. split; [reflexivity |].
  discriminate.
Qed.

(** C7.  When every clinical field is set, the one request goes to the
    single-assessment endpoint and its body is an object whose keys are
    exactly the thirteen clinical field names, the label not among them,
    each key bound to the number its field holds. *)
Theorem payload_thirteen_numbers (st : State) (net : FetchResult PredictData) :
  all_set st.(formData) ->
  exists payload,
    hd_error (snd (run (handleSubmit net) st))
    = Some (Fetch (ApiBase "/predict") payload)
    /\ requests (snd (run (handleSubmit net) st)) = 1%nat
    /\ dom payload =@{gset string}
       list_to_set ["age"; "sex"; "cp"; "trestbps"; "chol"; "fbs"; "restecg";
                    "thalach"; "exang"; "oldpeak"; "slope"; "ca"; "thal"]
    /\ size payload = 13%nat
    /\ payload !! "target" = None
    /\ (forall f, f <> target ->
          exists n, st.(formData) f = JNum n
                    /\ ToNumber (st.(formData) f) = n
                    /\ payload !! field_name f = Some (JNum n)).
Proof.
  intros Hall. exists (build_payload st.(formData)).
  pose proof (proj1 (all_set_missing _) Hall) as Hmiss.
  destruct (handleSubmit_requests st net Hmiss) as [Hone Hhd].
  destruct (build_payload_keys st.(formData)) as (Hdom & Hsize & Htarget).
  repeat (split; [assumption |]).
  intros f Hf. destruct (Hall f Hf) as [n Hn]. exists n.
  split; [exact Hn |]. split; [rewrite Hn; reflexivity |].
  apply build_payload_lookup; assumption.
Qed.

Lemma payload_thirteen_numbers_witness :
  all_set (formData shown_state)
  /\ exists payload,
       hd_error (snd (run (handleSubmit Rejected) shown_state))
       = Some (Fetch (ApiBase "/predict") payload)
       /\ size payload = 13%nat
       /\ payload !! "target" = None
       /\ payload !! "chol" = Some (JNum (Num 1)).
Proof.
  split; [exact filled_form_all_set |].
  destruct (payload_thirteen_numbers shown_state Rejected filled_form_all_set)
    as (payload & Hhd & _ & _ & Hsize & Htarget & Hfields).
  exists payload. repeat (split; [assumption |]).
  destruct (Hfields chol) as (n & Hn & _ & Hlook); [discriminate |].
  injection Hn as <-. exact Hlook.
Defined.

End PatientFormClaims.

(** ** The doctor login *)

Section DoctorLoginFacts.
Import DoctorLogin.

Lemma validate_spec (st : State) :
  match DoctorLogin.validate st with
  | Some msg =>
      (email st = "" /\ msg = "Please enter email or username.")
      \/ (email st <> "" /\ password st = "" /\ msg = "Please enter password.")
  | None => email st <> "" /\ password st <> ""
  end.
Proof.
  unfold DoctorLogin.validate.
  destruct (String.eqb_spec (email st) ""); [left; auto |].
  destruct (String.eqb_spec (password st) ""); [right; auto | auto].
Qed.

Lemma login_blocked
    (st : State) (e : bool) (net : FetchResult LoginData) (msg : string) :
  DoctorLogin.validate st = Some msg ->
  run (DoctorLogin.handleSubmit e net) st = (setError (Some msg) st, prevented e)
  /\ run (DoctorLoginToken.handleSubmit e net) st
     = (setError (Some msg) st, prevented e).
Proof.
  intros Hv. unfold DoctorLogin.handleSubmit, DoctorLoginToken.handleSubmit.
  unfold_handler.
  change (DoctorLoginToken.validate st) with (DoctorLogin.validate st).
  rewrite Hv.
  destruct e; split; reflexivity.
Qed.

Lemma login_sends (st : State) (e : bool) (net : FetchResult LoginData) :
  DoctorLogin.validate st = None ->
  sent (snd (run (DoctorLogin.handleSubmit e net) st)) = 1%nat
  /\ sent (snd (run (DoctorLoginToken.handleSubmit e net) st)) = 1%nat.
Proof.
  intros Hv. unfold DoctorLogin.handleSubmit, DoctorLoginToken.handleSubmit.
  unfold_handler.
  change (DoctorLoginToken.validate st) with (DoctorLogin.validate st).
  rewrite Hv.
  destruct e; simpl.
  all: destruct net as [|[o [[|d]|]]]; simpl; try (destruct o; simpl); auto.
  all: split.
  all: try (destruct (if_truthy (token d)); simpl;
            try destruct (user d); simpl;
            try destruct (ok_flag d || truthy (username d))%bool; reflexivity).
Qed.

End DoctorLoginFacts.

Section DoctorLoginClaims.
Import DoctorLogin.

(** C4.  In both versions of the login handler, no request is issued
    exactly when the user name or the password is the empty string; in
    that case the handler only sets the validation message (and calls
    [preventDefault] when given an event).  When both strings are
    non-empty, whatever they contain, one request goes out. *)
Theorem empty_credentials_no_request
    (st : State) (e : bool) (net : FetchResult LoginData) :
  let file_run := run (DoctorLogin.handleSubmit e net) st in
  let token_run := run (DoctorLoginToken.handleSubmit e net) st in
  (sent (snd file_run) = 0%nat <-> email st = "" \/ password st = "")
  /\ (sent (snd token_run) = 0%nat <-> email st = "" \/ password st = "")
  /\ (email st <> "" /\ password st <> "" ->
      sent (snd file_run) = 1%nat /\ sent (snd token_run) = 1%nat)
  /\ (email st = "" ->
      file_run = (setError (Some "Please enter email or username.") st, prevented e)
      /\ token_run = file_run)
  /\ (email st <> "" -> password st = "" ->
      file_run = (setError (Some "Please enter password.") st, prevented e)
      /\ token_run = file_run).
Proof.
  intros file_run token_run. subst file_run token_run.
  pose proof (validate_spec st) as Hv.
  destruct (DoctorLogin.validate st) as [msg|] eqn:Ev.
  - destruct (login_blocked st e net msg Ev) as [-> ->].
    assert (Hs : sent (prevented e) = 0%nat) by (destruct e; reflexivity).
    simpl. rewrite Hs.
    destruct Hv as [[He ->] | (He & Hp & ->)];
      repeat split; auto; try tauto; try congruence.
  - destruct (login_sends st e net Ev) as [H1 H2]. rewrite H1, H2.
    destruct Hv as [He Hp].
    repeat split; auto; try tauto; try congruence; try discriminate.
    all: intros [? | ?]; contradiction.
Qed.

Lemma empty_credentials_no_request_witness :
  password no_password_state = ""
  /\ run (DoctorLogin.handleSubmit true Rejected) no_password_state
     = (setError (Some "Please enter password.") no_password_state, [PreventDefault])
  /\ sent (snd (run (DoctorLogin.handleSubmit true Rejected) demo_state)) = 1%nat.
Proof.
  split; [reflexivity |].
  destruct (empty_credentials_no_request no_password_state true Rejected)
    as (_ & _ & _ & _ & Hpw).
  destruct (empty_credentials_no_request demo_state true Rejected)
    as (_ & _ & Hboth & _).
  split.
  - apply Hpw; [discriminate | reflexivity].
  - apply Hboth. split; discriminate.
Defined.

(** C5.  With both credentials present and a successful answer carrying
    the object [d]:
    - if [d.token] is a non-empty string, either version stores it under
      "authToken" (in the storage the remember box selects) and navigates
      to /doctor/dashboard;
    - if [d.token] is falsy and [d.ok] or [d.username] is truthy, the
      file-based version stores the user name under "authUser", sets the
      "authRemember" flag and navigates to [d.next], or to
      /doctor/dashboard when [d.next] is absent or empty;
    - in particular [{ok: true, username: "dr_raj"}] stores "dr_raj" and
      navigates to /doctor/dashboard, and with a non-empty [next] it
      navigates there instead. *)
Theorem successful_login_stores_and_navigates
    (st : State) (e : bool) (d : LoginData) :
  email st <> "" -> password st <> "" ->
  let request :=
    Fetch (ApiBase "/auth/login-file")
      [("username", trim (email st)); ("password", password st)] in
  let settled := setLoading false (setLoading true (setError None st)) in
  (forall t, token d = Some t -> t <> "" ->
     run (DoctorLogin.handleSubmit e (success d)) st
     = (settled,
        prevented e
        ++ [request; SetItem (chosen st) "authToken" (Verbatim t)]
        ++ match user d with
           | Some u => [SetItem localStorage "authUser" (Stringify u)]
           | None => []
           end
        ++ [Navigate "/doctor/dashboard"])
     /\ run (DoctorLoginToken.handleSubmit e (success d)) st
        = (settled,
           prevented e
           ++ [Fetch (Absolute "http://127.0.0.1:5001/auth/login")
                 [("email", trim (email st)); ("password", password st)];
               SetItem (chosen st) "authToken" (Verbatim t);
               SetItem localStorage "authUser"
                 (Stringify (default (Obj []) (user d)));
               Navigate "/doctor/dashboard"]))
  /\ (truthy (token d) = false ->
      ok_flag d = true \/ truthy (username d) = true ->
      run (DoctorLogin.handleSubmit e (success d)) st
      = (settled,
         prevented e
         ++ [request;
             SetItem localStorage "authUser"
               (Stringify (Obj [("username",
                                 or_else (username d) (trim (email st)))]));
             SetItem (chosen st) "authRemember" (Verbatim "1");
             Navigate (or_else (next d) "/doctor/dashboard")]))
  /\ run (DoctorLogin.handleSubmit e (success flag_answer)) st
     = (settled,
        prevented e
        ++ [request;
            SetItem localStorage "authUser"
              (Stringify (Obj [("username", "dr_raj")]));
            SetItem (chosen st) "authRemember" (Verbatim "1");
            Navigate "/doctor/dashboard"])
  /\ (forall target, target <> "" ->
      snd (run (DoctorLogin.handleSubmit e
                  (success (mkLoginData None None true (Some "dr_raj")
                              (Some target) None None))) st)
      = prevented e
        ++ [request;
            SetItem localStorage "authUser"
              (Stringify (Obj [("username", "dr_raj")]));
            SetItem (chosen st) "authRemember" (Verbatim "1");
            Navigate target]).
Proof.
  intros He Hp request settled. subst request settled.
  pose proof (validate_spec st) as Hv.
  destruct (DoctorLogin.validate st) as [msg|] eqn:Ev;
    [destruct Hv as [[? _] | (_ & ? & _)]; contradiction |].
  split; [| split; [| split]].
  - intros t Ht Hne.
    assert (Htr : if_truthy (token d) = Some t).
    { unfold if_truthy. rewrite Ht, (proj2 (truthy_Some t) Hne). reflexivity. }
    unfold DoctorLogin.handleSubmit, DoctorLoginToken.handleSubmit, success.
    unfold_handler.
    change (DoctorLoginToken.validate st) with (DoctorLogin.validate st).
    rewrite Ev. destruct e; simpl; rewrite Htr; simpl.
    all: split; [destruct (user d); reflexivity | reflexivity].
  - intros Htok Hflag.
    assert (Htr : if_truthy (token d) = None).
    { unfold if_truthy. rewrite Htok. reflexivity. }
    assert (Hor : (ok_flag d || truthy (username d))%bool = true).
    { destruct Hflag as [-> | ->]; [reflexivity | apply orb_true_r]. }
    unfold DoctorLogin.handleSubmit, success.
    unfold_handler. rewrite Ev. destruct e; simpl; rewrite Htr; simpl;
      rewrite Hor; reflexivity.
  - unfold DoctorLogin.handleSubmit, success, flag_answer.
    unfold_handler. rewrite Ev. destruct e; reflexivity.
  - intros target Ht.
    unfold DoctorLogin.handleSubmit, success.
    unfold_handler. rewrite Ev. destruct e; simpl;
      destruct (String.eqb_spec target ""); (contradiction || reflexivity).
Qed.

Lemma successful_login_stores_and_navigates_witness :
  email demo_state <> "" /\ password demo_state <> ""
  /\ snd (run (DoctorLogin.handleSubmit true (success flag_answer)) demo_state)
     = [PreventDefault;
        Fetch (ApiBase "/auth/login-file")
          [("username", "dr_raj"); ("password", "mySecretPass123")];
        SetItem localStorage "authUser" (Stringify (Obj [("username", "dr_raj")]));
        SetItem localStorage "authRemember" (Verbatim "1");
        Navigate "/doctor/dashboard"]
  /\ snd (run (DoctorLogin.handleSubmit true (success token_answer)) demo_state)
     = [PreventDefault;
        Fetch (ApiBase "/auth/login-file")
          [("username", "dr_raj"); ("password", "mySecretPass123")];
        SetItem localStorage "authToken" (Verbatim "abc123");
        SetItem localStorage "authUser" (Stringify (Obj [("name", "Raj")]));
        Navigate "/doctor/dashboard"].
Proof.
  assert (He : email demo_state <> "") by discriminate.
  assert (Hp : password demo_state <> "") by discriminate.
  split; [exact He |]. split; [exact Hp |].
  destruct (successful_login_stores_and_navigates demo_state true flag_answer He Hp)
    as (_ & _ & Hflag & _).
  destruct (successful_login_stores_and_navigates demo_state true token_answer He Hp)
    as (Htoken & _).
  split.
  - rewrite Hflag. reflexivity.
  - destruct (Htoken "abc123" eq_refl) as [Hfile _]; [discriminate |].
    rewrite Hfile. reflexivity.
Defined.

(** The token-only version accepts the token shape alone: the flag shape
    is answered with an error message, and nothing is stored. *)
Example token_only_rejects_flag_shape :
  run (DoctorLoginToken.handleSubmit true (success flag_answer)) demo_state
  = (setError (Some "Login succeeded but token missing. Check backend.") demo_state,
     [PreventDefault;
      Fetch (Absolute "http://127.0.0.1:5001/auth/login")
        [("email", "dr_raj"); ("password", "mySecretPass123")]]).
Proof. reflexivity. Qed.

End DoctorLoginClaims.

(** ** The doctor dashboard *)

Section DoctorDashboardFacts.
Import DoctorDashboard.

Lemma ge_spec (v : jsval) (t : Q) : ge v t = true <-> meets v t.
Proof.
  unfold ge, meets, num_ge. destruct (ToNumber v) as [|q]; split.
  - discriminate.
  - intros (q & Hq & _). discriminate.
  - intros H. exists q. split; [reflexivity | apply Qle_bool_iff, H].
  - intros (q' & Hq & Hle). injection Hq as <-. apply Qle_bool_iff, Hle.
Qed.

Lemma ge_reflects (v : jsval) (t : Q) (b : bool) :
  (b = true <-> meets v t) -> ge v t = b.
Proof.
  intros H. destruct b.
  - apply ge_spec, H. reflexivity.
  - destruct (ge v t) eqn:E; [| reflexivity].
    apply ge_spec, H in E. discriminate.
Qed.

Lemma meets_number (v : jsval) (t q : Q) :
  ToNumber v = Num q -> Qle_bool t q = true -> meets v t.
Proof. intros Hv Hle. exists q. split; [exact Hv | apply Qle_bool_iff, Hle]. Qed.

(** On the doubles of the binade of 0.8, the multiples [m / 2^53],
    comparing with the double the literal denotes and comparing with 8/10
    agree. *)
Lemma threshold_08_on_doubles (m : Z) :
  Qle_bool double_08 (m # 9007199254740992)
  = Qle_bool (8 # 10) (m # 9007199254740992).
Proof.
  apply eq_true_iff_eq. rewrite !Qle_bool_iff. unfold Qle, double_08. simpl. lia.
Qed.

Lemma find_selected (sel : string) (recs : list RecordType) (rec : RecordType) :
  selects sel recs rec ->
  List.find (fun x => String.eqb x.(_id) sel) recs = Some rec.
Proof.
  intros (_ & before & after & -> & Hbefore & Hid).
  induction Hbefore as [|r before Hr _ IH]; simpl.
  - rewrite Hid, String.eqb_refl. reflexivity.
  - destruct (String.eqb_spec (_id r) sel); [contradiction | exact IH].
Qed.

Lemma find_unknown (sel : string) (recs : list RecordType) :
  Forall (fun r => _id r <> sel) recs ->
  List.find (fun x => String.eqb x.(_id) sel) recs = None.
Proof.
  induction 1 as [|r recs Hr _ IH]; simpl; [reflexivity |].
  destruct (String.eqb_spec (_id r) sel); [contradiction | exact IH].
Qed.

(** The memo, once a record is selected, in terms of the four tests. *)
Lemma aiSuggestion_selected
    (sel : string) (recs : list RecordType) (rec : RecordType) :
  selects sel recs rec ->
  aiSuggestion sel recs
  = join " " (fired (ge (chol_of rec) 240) (ge (trestbps_of rec) 140)
                    (ge (oldpeak_of rec) 2) (ge (probability rec) (8 # 10))).
Proof.
  intros Hsel. unfold aiSuggestion. rewrite (find_selected _ _ _ Hsel).
  destruct Hsel as [Hne _].
  destruct (String.eqb_spec sel ""); [contradiction |].
  unfold chol_of, trestbps_of, oldpeak_of, fired, push_if, slice0.
  destruct (ge (prop (default ∅ (input rec)) "chol") 240),
           (ge (prop (default ∅ (input rec)) "trestbps") 140),
           (ge (prop (default ∅ (input rec)) "oldpeak") 2),
           (ge (probability rec) (8 # 10)); reflexivity.
Qed.

Lemma fired_length (c b o p : bool) : (List.length (fired c b o p) <= 4)%nat.
Proof. destruct c, b, o, p; simpl; lia. Qed.

Lemma selects_high_risk : selects "r-high" sample_records high_risk.
Proof.
  split; [discriminate |]. exists [chol_only], [no_probability].
  split; [reflexivity |]. split; [| reflexivity].
  constructor; [discriminate | constructor].
Defined.

Lemma selects_no_probability : selects "r-null" sample_records no_probability.
Proof.
  split; [discriminate |]. exists [chol_only; high_risk], [].
  split; [reflexivity |]. split; [| reflexivity].
  repeat constructor; discriminate.
Defined.

End DoctorDashboardFacts.

Section DoctorDashboardClaims.
Import DoctorDashboard.

(** C2.  For the record a non-empty identifier selects, the advisory text
    is the space-joined list of the sentences of the rules that hold
    (cholesterol >= 240, resting blood pressure >= 140, ST depression >=
    2.0, model probability >= 0.8), in that order; so it has at most four
    sentences, any other selection whose record gives the four tests the
    same outcomes yields the same text, and when all four hold it is the
    four sentences separated by single spaces. *)
Theorem advisory_is_rule_join
    (sel : string) (recs : list RecordType) (rec : RecordType) (c b o p : bool) :
  selects sel recs rec ->
  (c = true <-> meets (chol_of rec) 240) ->
  (b = true <-> meets (trestbps_of rec) 140) ->
  (o = true <-> meets (oldpeak_of rec) 2) ->
  (p = true <-> meets (probability rec) (8 # 10)) ->
  aiSuggestion sel recs = join " " (fired c b o p)
  /\ (List.length (fired c b o p) <= 4)%nat
  /\ (forall sel' recs' rec',
        selects sel' recs' rec' ->
        (c = true <-> meets (chol_of rec') 240) ->
        (b = true <-> meets (trestbps_of rec') 140) ->
        (o = true <-> meets (oldpeak_of rec') 2) ->
        (p = true <-> meets (probability rec') (8 # 10)) ->
        aiSuggestion sel' recs' = aiSuggestion sel recs)
  /\ (c = true -> b = true -> o = true -> p = true ->
      aiSuggestion sel recs
      = (highCholesterol ++ " " ++ highBP ++ " " ++ stDepression ++ " "
         ++ highProbability)%string).
Proof.
  intros Hsel Hc Hb Ho Hp.
  rewrite (aiSuggestion_selected sel recs rec Hsel).
  rewrite (ge_reflects _ _ c Hc), (ge_reflects _ _ b Hb),
          (ge_reflects _ _ o Ho), (ge_reflects _ _ p Hp).
  split; [reflexivity |]. split; [apply fired_length |]. split.
  - intros sel' recs' rec' Hsel' Hc' Hb' Ho' Hp'.
    rewrite (aiSuggestion_selected sel' recs' rec' Hsel').
    rewrite (ge_reflects _ _ c Hc'), (ge_reflects _ _ b Hb'),
            (ge_reflects _ _ o Ho'), (ge_reflects _ _ p Hp').
    reflexivity.
  - intros -> -> -> ->. reflexivity.
Qed.

Lemma advisory_is_rule_join_witness :
  aiSuggestion "r-high" sample_records
  = "High cholesterol — suggest lipid profile & diet change. High BP — consider antihypertensive review. Significant ST depression — cardiology consultation recommended. High model probability — prioritize follow-up soon.".
Proof.
  refine (proj2 (proj2 (proj2
    (advisory_is_rule_join "r-high" sample_records high_risk true true true true
       selects_high_risk _ _ _ _))) eq_refl eq_refl eq_refl eq_refl).
  - split; [intros _ | reflexivity]. apply (meets_number _ _ 250); reflexivity.
  - split; [intros _ | reflexivity]. apply (meets_number _ _ 150); reflexivity.
  - split; [intros _ | reflexivity]. apply (meets_number _ _ (5 # 2)); reflexivity.
  - split; [intros _ | reflexivity]. apply (meets_number _ _ (9 # 10)); reflexivity.
Defined.

(** The specification's example: cholesterol 250, resting blood pressure
    130, ST depression 1.0, probability 0.5 give the cholesterol sentence
    and nothing else. *)
Example advisory_cholesterol_only :
  aiSuggestion "r-chol" sample_records = highCholesterol.
Proof. vm_compute. reflexivity. Qed.

(** C9.  When the selected record has no probability ([null], or the
    member missing), the probability rule does not fire and nothing
    throws: the advisory text is the join of the other three rules'
    sentences, and the high-probability sentence does not occur in it. *)
Theorem null_probability_never_flagged
    (sel : string) (recs : list RecordType) (rec : RecordType) :
  selects sel recs rec ->
  probability rec = JNull \/ probability rec = JUndefined ->
  includes (aiSuggestion sel recs) highProbability = false
  /\ ~ occurs highProbability (aiSuggestion sel recs)
  /\ aiSuggestion sel recs
     = join " " (fired (ge (chol_of rec) 240) (ge (trestbps_of rec) 140)
                       (ge (oldpeak_of rec) 2) false).
Proof.
  intros Hsel Hp.
  rewrite (aiSuggestion_selected sel recs rec Hsel).
  assert (Hge : ge (probability rec) (8 # 10) = false)
    by (destruct Hp as [-> | ->]; reflexivity).
  rewrite Hge.
  assert (Hinc : includes
            (join " " (fired (ge (chol_of rec) 240) (ge (trestbps_of rec) 140)
                             (ge (oldpeak_of rec) 2) false))
            highProbability = false)
    by (destruct (ge (chol_of rec) 240), (ge (trestbps_of rec) 140),
                 (ge (oldpeak_of rec) 2); vm_compute; reflexivity).
  split; [exact Hinc |]. split; [apply includes_false, Hinc | reflexivity].
Qed.

Lemma null_probability_never_flagged_witness :
  probability no_probability = JNull
  /\ includes (aiSuggestion "r-null" sample_records) highProbability = false
  /\ aiSuggestion "r-null" sample_records
     = "High cholesterol — suggest lipid profile & diet change. High BP — consider antihypertensive review. Significant ST depression — cardiology consultation recommended.".
Proof.
  split; [reflexivity |].
  destruct (null_probability_never_flagged "r-null" sample_records no_probability
              selects_no_probability (or_introl eq_refl)) as (Hinc & _ & Heq).
  split; [exact Hinc | rewrite Heq; vm_compute; reflexivity].
Defined.

(** C10.  When the identifier is empty, or no record of the list carries
    it, the advisory text is the empty string. *)
Theorem unknown_selection_gives_empty (sel : string) (recs : list RecordType) :
  sel = "" \/ Forall (fun r => _id r <> sel) recs ->
  aiSuggestion sel recs = "".
Proof.
  intros [-> | Hnone]; [reflexivity |].
  unfold aiSuggestion. rewrite (find_unknown sel recs Hnone).
  destruct (String.eqb sel ""); reflexivity.
Qed.

Lemma unknown_selection_gives_empty_witness :
  aiSuggestion "" sample_records = ""
  /\ aiSuggestion "r-typed-by-hand" sample_records = "".
Proof.
  split.
  - apply (unknown_selection_gives_empty "" sample_records). left. reflexivity.
  - apply (unknown_selection_gives_empty "r-typed-by-hand" sample_records).
    right. repeat constructor; discriminate.
Defined.

(** C8.  Saving a note never changes the record list (nor the
    selection, nor therefore the advisory text), whatever the answer; it
    always leaves a message, and once a record is selected and a note
    written that message is the confirmation after a readable success
    answer, the failure message after a readable non-success answer, and
    the network-error message otherwise. *)
Theorem save_note_leaves_records (st : State) (net : FetchResult unit) :
  let st' := fst (run (saveNote net) st) in
  records st' = records st
  /\ selectedId st' = selectedId st
  /\ aiSuggestion (selectedId st') (records st')
     = aiSuggestion (selectedId st) (records st)
  /\ (exists m, message st' = Some m)
  /\ (selectedId st <> "" -> trim (notesText st) <> "" ->
      message st'
      = Some match net with
             | Resolved (mkResponse true (Some _)) => "Note saved successfully"
             | Resolved (mkResponse false (Some _)) => "Failed to save note"
             | _ => "Network error while saving note."
             end).
Proof.
  intros st'. subst st'. unfold saveNote. unfold_handler.
  destruct (String.eqb_spec (selectedId st) "") as [Hs | Hs]; simpl.
  { repeat split; eauto. intros; contradiction. }
  destruct (String.eqb_spec (trim (notesText st)) "") as [Hn | Hn]; simpl.
  { repeat split; eauto. intros; contradiction. }
  destruct net as [|[o [[|[]]|]]]; simpl; try (destruct o; simpl);
    repeat split; eauto.
Qed.

Lemma save_note_leaves_records_witness :
  records (fst (run (saveNote (Resolved (mkResponse true (Some (JsonObj tt)))))
                    noting_state))
  = sample_records
  /\ message (fst (run (saveNote (Resolved (mkResponse true (Some (JsonObj tt)))))
                       noting_state))
     = Some "Note saved successfully"
  /\ records (fst (run (saveNote Rejected) noting_state)) = sample_records
  /\ message (fst (run (saveNote Rejected) noting_state))
     = Some "Network error while saving note.".
Proof.
  pose proof (save_note_leaves_records noting_state
                (Resolved (mkResponse true (Some (JsonObj tt))))) as Hok.
  pose proof (save_note_leaves_records noting_state Rejected) as Hfail.
  simpl in Hok, Hfail.
  destruct Hok as (Hr1 & _ & _ & _ & Hm1).
  destruct Hfail as (Hr2 & _ & _ & _ & Hm2).
  split; [exact Hr1 |]. split; [apply Hm1; discriminate |].
  split; [exact Hr2 | apply Hm2; discriminate].
Defined.

End DoctorDashboardClaims.

(** * Further properties *)

(** ** White space *)





(** ** The intake form, continued *)

Section PatientFormInput.
Import PatientForm.
Variable N : string -> number.

Lemma numericFields_all (f : field) :
  existsb (fun g => bool_decide (g = f)) numericFields = true.
Proof. destruct f; reflexivity. Qed.

Lemma handleInputChange_run (f : field) (v : string) (st : State) :
  run (handleInputChange N f v) st
  = (setFormData (fun prev g => if decide (g = f) then typed N v else prev g) st, []).
Proof.
  unfold handleInputChange, typed. unfold_handler.
  rewrite numericFields_all. simpl.
  destruct (String.eqb v ""); reflexivity.
Qed.

Lemma type_all_fields (edits : list (field * string)) (st : State) (f : field) :
  formData (type_all N edits st) f
  = match last_edit f edits with
    | Some v => typed N v
    | None => formData st f
    end.
Proof.
  revert st. induction edits as [|[g v] rest IH]; intros st; [reflexivity |].
  unfold type_all in *. cbn [foldl fst snd last_edit].
  rewrite IH, handleInputChange_run. cbn [fst formData setFormData].
  destruct (last_edit f rest); [reflexivity |].
  destruct (decide (g = f)) as [-> | Hne].
  - destruct (decide (f = f)); [reflexivity | contradiction].
  - destruct (decide (f = g)); [congruence | reflexivity].
Qed.



End PatientFormInput.

Section PatientFormMore.
Import PatientForm.


(** X2.  Once the last edit of every clinical field is some non-empty
    text, numeral or not, submitting issues the request, whatever the
    form held before and whatever the label holds: text that does not
    read as a number counts as filled in. *)
Theorem nonempty_edits_unlock_submission
    (N : string -> number) (edits : list (field * string)) (st : State)
    (net : FetchResult PredictData) :
  (forall f, f <> target -> exists v, last_edit f edits = Some v /\ v <> "") ->
  let st' := type_all N edits st in
  missingRequired (formData st') = []
  /\ requests (snd (run (handleSubmit net) st')) = 1%nat
  /\ (forall f v, f <> target -> last_edit f edits = Some v ->
        build_payload (formData st') !! field_name f = Some (JNum (N v))).
Proof.
  intros Hlast st'. subst st'.
  assert (Hset : all_set (formData (type_all N edits st))).
  { intros f Hf. destruct (Hlast f Hf) as (v & Hv & Hne).
    exists (N v). rewrite type_all_fields, Hv. unfold typed.
    destruct (String.eqb_spec v ""); [contradiction | reflexivity]. }
  pose proof (proj1 (all_set_missing _) Hset) as Hmiss.
  split; [exact Hmiss |]. split; [apply handleSubmit_requests, Hmiss |].
  intros f v Hf Hv. apply build_payload_lookup; [exact Hf |].
  rewrite type_all_fields, Hv. unfold typed.
  destruct (Hlast f Hf) as (w & Hw & Hne). rewrite Hv in Hw. injection Hw as <-.
  destruct (String.eqb_spec v ""); [contradiction | reflexivity].
Qed.

Lemma sample_edits_cover (f : field) :
  f <> target -> exists v, last_edit f sample_edits = Some v /\ v <> "".
Proof.
  intros Hf. destruct f; try congruence;
    (eexists; split; [vm_compute; reflexivity | discriminate]).
Defined.

Lemma nonempty_edits_unlock_submission_witness :
  requests (snd (run (handleSubmit Rejected)
                     (type_all decimal sample_edits initialState))) = 1%nat
  /\ build_payload (formData (type_all decimal sample_edits initialState)) !! "age"
     = Some (JNum (Num 55))
  /\ build_payload (formData (type_all decimal sample_edits initialState)) !! "chol"
     = Some (JNum NaN).
Proof.
  destruct (nonempty_edits_unlock_submission decimal sample_edits initialState
              Rejected sample_edits_cover) as (_ & Hreq & Hpay).
  split; [exact Hreq |]. split.
  - apply (Hpay age "55"); [discriminate | reflexivity].
  - apply (Hpay chol "abc"); [discriminate | reflexivity].
Defined.

(** X3.  The label never matters to a submission: two states whose
    clinical fields agree have the same missing list and the same payload,
    and submitting leaves the same trace of events. *)
Theorem label_never_sent (st1 st2 : State) (net : FetchResult PredictData) :
  (forall f, f <> target -> formData st1 f = formData st2 f) ->
  missingRequired (formData st1) = missingRequired (formData st2)
  /\ build_payload (formData st1) = build_payload (formData st2)
  /\ snd (run (handleSubmit net) st1) = snd (run (handleSubmit net) st2).
Proof.
  intros Hsame.
  assert (Hmiss : missingRequired (formData st1) = missingRequired (formData st2)).
  { unfold missingRequired. apply filter_ext_in. intros f Hf.
    apply requiredFields_spec in Hf. rewrite (Hsame f Hf). reflexivity. }
  assert (Hpay : build_payload (formData st1) = build_payload (formData st2)).
  { unfold build_payload, requiredFields. cbn [foldl].
    rewrite !Hsame by discriminate. reflexivity. }
  split; [exact Hmiss |]. split; [exact Hpay |].
  unfold handleSubmit. unfold_handler. rewrite Hmiss, Hpay.
  destruct (0 <? List.length (missingRequired (formData st2)))%nat; [reflexivity |].
  simpl. destruct net as [|[o [[|d]|]]]; simpl; try (destruct o; simpl); reflexivity.
Qed.

Lemma label_never_sent_witness :
  formData shown_state target <> formData labelled_state target
  /\ snd (run (handleSubmit Rejected) shown_state)
     = snd (run (handleSubmit Rejected) labelled_state).
Proof.
  split; [discriminate |].
  apply (label_never_sent shown_state labelled_state Rejected).
  intros f Hf. destruct f; try reflexivity. congruence.
Defined.

(** X4.  Once every clinical field is set, a submission ends with the
    loading flag off and with the fields, the step and the upload cells as
    they were (the form is not reset, even after a success).  The result
    cell holds the answer after a readable success and is empty
    otherwise.  No alert follows a readable success; a readable refusal
    alerts the server's [error] text, or "Server returned an error" when
    it is absent or empty; every other outcome, a [null] body included,
    alerts the connection message. *)
Theorem submission_outcomes (st : State) (net : FetchResult PredictData) :
  all_set st.(formData) ->
  let st' := fst (run (handleSubmit net) st) in
  let trace := snd (run (handleSubmit net) st) in
  loading st' = false
  /\ formData st' = formData st
  /\ currentStep st' = currentStep st
  /\ fileResult st' = fileResult st
  /\ fileLoading st' = fileLoading st
  /\ result st'
     = match net with
       | Resolved (mkResponse true (Some (JsonObj d))) => Some d
       | _ => None
       end
  /\ alerts trace
     = match net with
       | Resolved (mkResponse true (Some _)) => []
       | Resolved (mkResponse false (Some (JsonObj d))) =>
           [or_else (error d) "Server returned an error"]
       | _ => ["Failed to connect to server. Make sure the backend is running."]
       end.
Proof.
  intros Hall. apply all_set_missing in Hall.
  unfold handleSubmit. unfold_handler. rewrite Hall. simpl.
  destruct net as [|[o [[|d]|]]]; simpl; try (destruct o; simpl); repeat split.
Qed.

Lemma submission_outcomes_witness :
  all_set (formData shown_state)
  /\ result (fst (run (handleSubmit
                         (Resolved (mkResponse true (Some (JsonObj sample_result)))))
                      shown_state))
     = Some sample_result
  /\ alerts (snd (run (handleSubmit
                         (Resolved (mkResponse false (Some (JsonObj sample_result)))))
                      shown_state))
     = ["Server returned an error"]
  /\ alerts (snd (run (handleSubmit (Resolved (mkResponse false (Some JsonNull))))
                      shown_state))
     = ["Failed to connect to server. Make sure the backend is running."].
Proof.
  split; [exact filled_form_all_set |].
  pose proof (submission_outcomes shown_state
                (Resolved (mkResponse true (Some (JsonObj sample_result))))
                filled_form_all_set) as H1.
  pose proof (submission_outcomes shown_state
                (Resolved (mkResponse false (Some (JsonObj sample_result))))
                filled_form_all_set) as H2.
  pose proof (submission_outcomes shown_state
                (Resolved (mkResponse false (Some JsonNull)))
                filled_form_all_set) as H3.
  cbv zeta in H1, H2, H3.
  destruct H1 as (_ & _ & _ & _ & _ & H1 & _).
  destruct H2 as (_ & _ & _ & _ & _ & _ & H2).
  destruct H3 as (_ & _ & _ & _ & _ & _ & H3).
  split; [exact H1 |]. split; [exact H2 | exact H3].
Defined.

(** X5.  Choosing a file always issues exactly one request, to the batch
    endpoint and carrying that file unchanged; nothing about the form is
    checked first.  Afterwards the upload flag is off, the upload result
    holds the answer after a readable success and is empty otherwise, and
    the fields, the step, the prediction result and the submit flag are
    untouched.  A readable refusal alerts the server's [error] text, or
    "Upload failed"; every other failure alerts the upload message. *)
Theorem file_upload_outcomes
    (st : State) (file : string) (net : FetchResult UploadData) :
  let st' := fst (run (handleFileUpload file net) st) in
  let trace := snd (run (handleFileUpload file net) st) in
  uploads trace = [(ApiBase "/predict-file", file)]
  /\ fileLoading st' = false
  /\ formData st' = formData st
  /\ currentStep st' = currentStep st
  /\ result st' = result st
  /\ loading st' = loading st
  /\ fileResult st'
     = match net with
       | Resolved (mkResponse true (Some (JsonObj d))) => Some (upload_body d)
       | _ => None
       end
  /\ upload_alerts trace
     = match net with
       | Resolved (mkResponse true (Some _)) => []
       | Resolved (mkResponse false (Some (JsonObj d))) =>
           [or_else (upload_error d) "Upload failed"]
       | _ => ["Unable to upload file. Check console."]
       end.
Proof.
  intros st' trace. subst st' trace. unfold handleFileUpload. unfold_handler.
  destruct net as [|[o [[|d]|]]]; simpl; try (destruct o; simpl); repeat split.
Qed.

End PatientFormMore.

(** ** Navigation of the form, continued *)

Section PatientFormSteps.
Import PatientForm.

Lemma navigate_step (op : nav) (st : State) :
  currentStep (fst (run (navigate op) st))
  = match op with
    | Advance => if (currentStep st <? 6)%Z then (currentStep st + 1)%Z
                 else currentStep st
    | Retreat => if (currentStep st >? 1)%Z then (currentStep st - 1)%Z
                 else currentStep st
    end.
Proof.
  destruct op; unfold navigate, nextStep, prevStep, totalSteps; unfold_handler.
  - destruct (currentStep st <? 6)%Z; reflexivity.
  - destruct (currentStep st >? 1)%Z; reflexivity.
Qed.

(** X20.  From a step between 1 and 6, [k] clicks on Next lead to step
    [min (step + k) 6] and [k] clicks on Previous to [max (step - k) 1]:
    the last step, where the submit button is rendered, is reached from
    the first after exactly five advances and never left by advancing.
    Next followed by Previous returns to the same step, except at the
    last step, where it goes one back. *)
Theorem repeated_navigation (st : State) (k : nat) :
  (1 <= currentStep st <= 6)%Z ->
  currentStep (navigate_all (repeat Advance k) st)
  = Z.min (currentStep st + Z.of_nat k) 6
  /\ currentStep (navigate_all (repeat Retreat k) st)
     = Z.max (currentStep st - Z.of_nat k) 1
  /\ currentStep (navigate_all [Advance; Retreat] st)
     = (if (currentStep st <? 6)%Z then currentStep st else 5)%Z.
Proof.
  intros Hr. split; [| split].
  - revert st Hr. induction k as [|k IH]; intros st Hr.
    + simpl. lia.
    + change (navigate_all (repeat Advance (S k)) st)
        with (navigate_all (repeat Advance k) (fst (run (navigate Advance) st))).
      rewrite IH by (apply navigate_range, Hr).
      rewrite navigate_step.
      destruct (Z.ltb_spec (currentStep st) 6); lia.
  - revert st Hr. induction k as [|k IH]; intros st Hr.
    + simpl. lia.
    + change (navigate_all (repeat Retreat (S k)) st)
        with (navigate_all (repeat Retreat k) (fst (run (navigate Retreat) st))).
      rewrite IH by (apply navigate_range, Hr).
      rewrite navigate_step.
      destruct (Z.gtb_spec (currentStep st) 1); lia.
  - change (navigate_all [Advance; Retreat] st)
      with (fst (run (navigate Retreat) (fst (run (navigate Advance) st)))).
    rewrite !navigate_step.
    destruct (Z.ltb_spec (currentStep st) 6) as [Hlt | Hge].
    + destruct (Z.gtb_spec (currentStep st + 1) 1); lia.
    + destruct (Z.gtb_spec (currentStep st) 1); lia.
Qed.

Lemma repeated_navigation_witness :
  currentStep (navigate_all (repeat Advance 4) initialState) = 5%Z
  /\ currentStep (navigate_all (repeat Advance 5) initialState) = 6%Z
  /\ currentStep (navigate_all (repeat Advance 9) initialState) = 6%Z
  /\ currentStep (navigate_all [Advance; Retreat] shown_state) = 5%Z.
Proof.
  assert (H1 : (1 <= currentStep initialState <= 6)%Z) by (simpl; lia).
  assert (H6 : (1 <= currentStep shown_state <= 6)%Z) by (simpl; lia).
  split; [exact (proj1 (repeated_navigation initialState 4 H1)) |].
  split; [exact (proj1 (repeated_navigation initialState 5 H1)) |].
  split; [exact (proj1 (repeated_navigation initialState 9 H1)) |].
  exact (proj2 (proj2 (repeated_navigation shown_state 0 H6))).
Defined.

End PatientFormSteps.

(** ** The doctor login, continued *)

Section DoctorLoginMore.
Import DoctorLogin.

Lemma validate_filled (st : State) :
  filled st -> DoctorLogin.validate st = None.
Proof.
  intros [He Hp]. unfold DoctorLogin.validate.
  destruct (String.eqb_spec (email st) ""); [contradiction |].
  destruct (String.eqb_spec (password st) ""); [contradiction | reflexivity].
Qed.

(** Opens both login handlers on a state that passes validation. *)
Ltac open_login st Hv :=
  unfold DoctorLogin.handleSubmit, DoctorLoginToken.handleSubmit;
  unfold_handler;
  change (DoctorLoginToken.validate st) with (DoctorLogin.validate st);
  rewrite Hv.

(** X6.  A readable refusal leaves the server's text in the error cell:
    the file-based version prefers [error] to [message], the token-only
    version prefers [message] to [error], and both fall back to "Login
    failed. Check credentials." when neither is a non-empty text.
    Nothing is stored, nothing navigates, and the loading flag is off. *)
Theorem refusal_message_precedence (st : State) (e : bool) (d : LoginData) :
  filled st ->
  let file_run := run (DoctorLogin.handleSubmit e (refusal d)) st in
  let token_run := run (DoctorLoginToken.handleSubmit e (refusal d)) st in
  error_msg (fst file_run)
  = Some (or_else (or_opt (error d) (message d)) "Login failed. Check credentials.")
  /\ error_msg (fst token_run)
     = Some (or_else (or_opt (message d) (error d)) "Login failed. Check credentials.")
  /\ (forall a b, error d = Some a -> message d = Some b -> a <> "" -> b <> "" ->
        error_msg (fst file_run) = Some a /\ error_msg (fst token_run) = Some b)
  /\ loading (fst file_run) = false /\ loading (fst token_run) = false
  /\ writes (snd file_run) = [] /\ writes (snd token_run) = []
  /\ navigations (snd file_run) = [] /\ navigations (snd token_run) = [].
Proof.
  intros Hf file_run token_run. subst file_run token_run.
  pose proof (validate_filled st Hf) as Hv. unfold refusal.
  open_login st Hv. destruct e; simpl.
  all: split; [reflexivity |]; split; [reflexivity |]; split; [| repeat split].
  all: intros a b -> -> Ha Hb; unfold or_opt, or_else, truthy;
    destruct (String.eqb_spec a ""); [contradiction |];
    destruct (String.eqb_spec b ""); [contradiction |]; simpl;
    destruct (String.eqb_spec a ""); [contradiction |];
    destruct (String.eqb_spec b ""); [contradiction |]; split; reflexivity.
Qed.

Lemma demo_filled : filled demo_state.
Proof. split; discriminate. Defined.

Lemma refusal_message_precedence_witness :
  filled demo_state
  /\ error_msg (fst (run (DoctorLogin.handleSubmit true (refusal both_texts)) demo_state))
     = Some "locked"
  /\ error_msg (fst (run (DoctorLoginToken.handleSubmit true (refusal both_texts))
                         demo_state))
     = Some "try later"
  /\ error_msg (fst (run (DoctorLogin.handleSubmit true (refusal emptyData)) demo_state))
     = Some "Login failed. Check credentials.".
Proof.
  split; [exact demo_filled |].
  destruct (refusal_message_precedence demo_state true both_texts demo_filled)
    as (_ & _ & Hboth & _).
  destruct (refusal_message_precedence demo_state true emptyData demo_filled)
    as (Hnone & _).
  destruct (Hboth "locked" "try later" eq_refl eq_refl) as [H1 H2];
    try discriminate.
  split; [exact H1 |]. split; [exact H2 | exact Hnone].
Defined.



(** X8.  A login navigates exactly when both credentials are filled in
    and the answer is a readable success that the version acts on (a
    truthy [token], [ok] or [username] for the file-based version, a
    truthy [token] for the token-only one); it never navigates twice.
    Storage is written exactly when it navigates, and then the error cell
    is empty, whatever it showed before. *)
Theorem login_navigates_iff_accepted
    (st : State) (e : bool) (net : FetchResult LoginData) :
  let file_run := run (DoctorLogin.handleSubmit e net) st in
  let token_run := run (DoctorLoginToken.handleSubmit e net) st in
  (navigations (snd file_run) <> [] <-> filled st /\ accepted_file net = true)
  /\ (navigations (snd token_run) <> [] <-> filled st /\ accepted_token net = true)
  /\ (writes (snd file_run) <> [] <-> navigations (snd file_run) <> [])
  /\ (writes (snd token_run) <> [] <-> navigations (snd token_run) <> [])
  /\ (List.length (navigations (snd file_run)) <= 1)%nat
  /\ (List.length (navigations (snd token_run)) <= 1)%nat
  /\ (navigations (snd file_run) <> [] -> error_msg (fst file_run) = None)
  /\ (navigations (snd token_run) <> [] -> error_msg (fst token_run) = None).
Proof.
  intros file_run token_run. subst file_run token_run.
  pose proof (validate_spec st) as Hspec.
  destruct (DoctorLogin.validate st) as [msg|] eqn:Hv.
  - assert (Hn : ~ filled st).
    { intros [He Hp]. destruct Hspec as [[? _] | (_ & ? & _)]; contradiction. }
    destruct (login_blocked st e net msg Hv) as [-> ->].
    assert (H1 : navigations (prevented e) = []) by (destruct e; reflexivity).
    assert (H2 : writes (prevented e) = []) by (destruct e; reflexivity).
    simpl. rewrite H1, H2. simpl.
    repeat split; intros; try tauto; try lia; try contradiction.
  - assert (Hf : filled st) by exact Hspec.
    open_login st Hv.
    destruct e, net as [|[o [[|d]|]]]; simpl; try (destruct o; simpl).
    all: unfold if_truthy, truthy;
      try (destruct (token d) as [t|]; simpl;
           [destruct (String.eqb t ""); simpl |]);
      try (destruct (user d); simpl);
      try (destruct (ok_flag d); simpl);
      try (destruct (username d) as [u|]; simpl;
           [destruct (String.eqb u ""); simpl |]).
    all: repeat split; intros; simpl in *;
      try tauto; try lia; try congruence; try discriminate;
      try (match goal with H : _ /\ _ |- _ => destruct H as [_ H] end; discriminate).
Qed.

Lemma login_navigates_iff_accepted_witness :
  filled forgetful_state
  /\ accepted_file (success flag_answer) = true
  /\ navigations (snd (run (DoctorLogin.handleSubmit true (success flag_answer))
                           forgetful_state)) <> []
  /\ error_msg (fst (run (DoctorLogin.handleSubmit true (success flag_answer))
                         forgetful_state)) = None
  /\ navigations (snd (run (DoctorLoginToken.handleSubmit true (success flag_answer))
                           forgetful_state)) = [].
Proof.
  assert (Hf : filled forgetful_state) by (split; discriminate).
  destruct (login_navigates_iff_accepted forgetful_state true (success flag_answer))
    as (Hnav & Htok & _ & _ & _ & _ & Herr & _).
  assert (Hgo : navigations (snd (run (DoctorLogin.handleSubmit true
                                         (success flag_answer)) forgetful_state))
                <> []) by (apply Hnav; split; [exact Hf | reflexivity]).
  split; [exact Hf |]. split; [reflexivity |]. split; [exact Hgo |].
  split; [exact (Herr Hgo) |].
  destruct (navigations (snd (run (DoctorLoginToken.handleSubmit true
                                     (success flag_answer)) forgetful_state)))
    as [|x l] eqn:E; [reflexivity |].
  exfalso. assert (Hne : x :: l <> []) by discriminate.
  apply Htok in Hne. destruct Hne as [_ Hacc]. discriminate.
Defined.

(** X9.  Whatever the answer, every storage write of a login follows the
    same discipline: the user record goes to [localStorage] under
    "authUser" even when the remember box is unchecked, and every other
    key ("authToken", "authRemember") goes to the storage the box
    selects.  So an unchecked box never puts the token into
    [localStorage], and a checked box never writes [sessionStorage]. *)
Theorem storage_follows_remember
    (st : State) (e : bool) (net : FetchResult LoginData) :
  let discipline := fun w : Storage * string * StoredValue =>
    let '(store, key, _) := w in
    if String.eqb key "authUser" then store = localStorage
    else store = chosen st
         /\ (key = "authToken" \/ key = "authRemember") in
  Forall discipline (writes (snd (run (DoctorLogin.handleSubmit e net) st)))
  /\ Forall discipline (writes (snd (run (DoctorLoginToken.handleSubmit e net) st))).
Proof.
  intros discipline. subst discipline.
  destruct (DoctorLogin.validate st) as [msg|] eqn:Hv.
  - destruct (login_blocked st e net msg Hv) as [-> ->].
    destruct e; split; simpl; apply List.Forall_nil.
  - open_login st Hv.
    destruct e, net as [|[o [[|d]|]]]; simpl; try (destruct o; simpl).
    all: try (destruct (if_truthy (token d)); simpl);
      try (destruct (user d); simpl);
      try (destruct (ok_flag d || truthy (username d))%bool; simpl).
    all: split;
      repeat (apply List.Forall_cons; [simpl; auto |]); apply List.Forall_nil.
Qed.





End DoctorLoginMore.

(** ** The doctor dashboard, continued *)

Section DoctorDashboardMore.
Import DoctorDashboard.

(** X12.  A refresh issues one request for the record list and always
    ends with the loading flag off, leaving the selection, the note, the
    saving flag and the message alone.  The list is replaced only by a
    readable success answer, by its [records] member or by the empty list
    when that member is missing; any other outcome keeps the list, and
    the console gets a message exactly when the request is rejected, the
    body is unreadable, or a success answer is [null]. *)
Theorem refresh_outcomes (st : State) (net : FetchResult RecordsData) :
  let st' := fst (run (fetchRecords net) st) in
  let trace := snd (run (fetchRecords net) st) in
  loading st' = false
  /\ selectedId st' = selectedId st
  /\ notesText st' = notesText st
  /\ saving st' = saving st
  /\ message st' = message st
  /\ records st'
     = match net with
       | Resolved (mkResponse true (Some (JsonObj d))) => default [] (data_records d)
       | _ => records st
       end
  /\ trace
     = FetchRecords (Absolute "http://127.0.0.1:5001/records")
       :: match net with
          | Resolved (mkResponse true (Some (JsonObj _)))
          | Resolved (mkResponse false (Some _)) => []
          | _ => [ConsoleError "Failed to fetch records"]
          end.
Proof.
  intros st' trace. subst st' trace. unfold fetchRecords. unfold_handler.
  destruct net as [|[o [[|d]|]]]; simpl; try (destruct o; simpl); repeat split.
Qed.

Lemma first_with_id (recs : list RecordType) (r : RecordType) :
  In r recs -> _id r <> "" ->
  exists r', selects (_id r) recs r'
             /\ (List.NoDup (map _id recs) -> r' = r).
Proof.
  intros Hin Hne. induction recs as [|x recs IH]; [destruct Hin |].
  destruct (String.eqb_spec (_id x) (_id r)) as [Heq | Hneq].
  - exists x. split.
    + split; [exact Hne |]. exists [], recs. repeat split; auto.
    + intros Hnd. destruct Hin as [-> | Hin]; [reflexivity |].
      exfalso. simpl in Hnd. apply List.NoDup_cons_iff in Hnd as [Hx _].
      apply Hx. rewrite Heq. apply in_map, Hin.
  - destruct Hin as [-> | Hin]; [congruence |].
    destruct (IH Hin) as (r' & (_ & before & after & -> & Hbefore & Hid) & Huniq).
    exists r'. split.
    + split; [exact Hne |]. exists (x :: before), after.
      repeat split; auto.
    + intros Hnd. simpl in Hnd. apply List.NoDup_cons_iff in Hnd as [_ Hnd].
      apply Huniq, Hnd.
Qed.

(** X13.  Clicking a row of the table selects its identifier and clears
    the note and the message.  The advisory text then shown is computed
    from the first record of the list that carries this identifier: it is
    the clicked record when identifiers are distinct, and it is the empty
    text when the clicked record's identifier is empty. *)
Theorem row_click_selects (st : State) (r : RecordType) :
  In r (records st) ->
  let st' := fst (run (onRowClick r) st) in
  selectedId st' = _id r
  /\ notesText st' = "" /\ message st' = None
  /\ records st' = records st
  /\ (_id r = "" -> aiSuggestion (selectedId st') (records st') = "")
  /\ (_id r <> "" ->
      exists r',
        selects (_id r) (records st) r'
        /\ (List.NoDup (map _id (records st)) -> r' = r)
        /\ aiSuggestion (selectedId st') (records st')
           = join " " (fired (ge (chol_of r') 240) (ge (trestbps_of r') 140)
                             (ge (oldpeak_of r') 2)
                             (ge (probability r') (8 # 10)))).
Proof.
  intros Hin st'. subst st'. unfold onRowClick. unfold_handler. simpl.
  repeat (split; [reflexivity |]). split.
  - intros ->. reflexivity.
  - intros Hne. destruct (first_with_id (records st) r Hin Hne) as (r' & Hsel & Huniq).
    exists r'. split; [exact Hsel |]. split; [exact Huniq |].
    apply aiSuggestion_selected, Hsel.
Qed.

Lemma row_click_selects_witness :
  In chol_only (records noting_state)
  /\ aiSuggestion (selectedId (fst (run (onRowClick chol_only) noting_state)))
                  (records (fst (run (onRowClick chol_only) noting_state)))
     = highCholesterol
  /\ notesText (fst (run (onRowClick chol_only) noting_state)) = "".
Proof.
  split; [left; reflexivity |].
  assert (Hin : In chol_only (records noting_state)) by (left; reflexivity).
  destruct (row_click_selects noting_state chol_only Hin)
    as (_ & Hnote & _ & _ & _ & Hadv).
  split; [| exact Hnote].
  destruct Hadv as (r' & _ & Huniq & Heq); [discriminate |].
  rewrite Heq, Huniq; [vm_compute; reflexivity |].
  repeat constructor; simpl; intuition discriminate.
Defined.






Lemma fired_empty (c b o p : bool) :
  join " " (fired c b o p) = ""
  <-> c = false /\ b = false /\ o = false /\ p = false.
Proof.
  destruct c, b, o, p; split; intros H; try discriminate H; auto;
    destruct H as (? & ? & ? & ?); discriminate.
Qed.


Lemma ge_false_spec (v : jsval) (t : Q) : ge v t = false <-> ~ meets v t.
Proof.
  rewrite <- ge_spec. destruct (ge v t); split; intros H; auto; try discriminate.
  exfalso. apply H. reflexivity.
Qed.

(** X16.  For a selected record the advisory text is empty exactly when
    none of the four thresholds is met, and that is exactly when the
    Insert Suggestion button is disabled: a selected record with
    unremarkable values shows no advice at all. *)
Theorem advisory_empty_iff_no_rule (st : State) (rec : RecordType) :
  selects (selectedId st) (records st) rec ->
  let none_met :=
    ~ meets (chol_of rec) 240 /\ ~ meets (trestbps_of rec) 140
    /\ ~ meets (oldpeak_of rec) 2 /\ ~ meets (probability rec) (8 # 10) in
  (aiSuggestion (selectedId st) (records st) = "" <-> none_met)
  /\ (insertDisabled st = true <-> none_met).
Proof.
  intros Hsel none_met. subst none_met.
  assert (H : aiSuggestion (selectedId st) (records st) = ""
              <-> ~ meets (chol_of rec) 240 /\ ~ meets (trestbps_of rec) 140
                  /\ ~ meets (oldpeak_of rec) 2
                  /\ ~ meets (probability rec) (8 # 10)).
  { rewrite (aiSuggestion_selected _ _ _ Hsel), fired_empty.
    rewrite !ge_false_spec. reflexivity. }
  split; [exact H |].
  rewrite <- H. unfold insertDisabled.
  destruct (String.eqb_spec (aiSuggestion (selectedId st) (records st)) "");
    split; intros; congruence.
Qed.

Lemma selects_chol_only : selects "r-chol" sample_records chol_only.
Proof.
  split; [discriminate |]. exists [], [high_risk; no_probability].
  repeat split. constructor.
Defined.

Lemma advisory_empty_iff_no_rule_witness :
  meets (chol_of chol_only) 240
  /\ insertDisabled (mkState sample_records false "r-chol" "" false None) <> true.
Proof.
  assert (Hm : meets (chol_of chol_only) 240)
    by (apply (meets_number _ _ 250); reflexivity).
  split; [exact Hm |].
  intros Hdis.
  apply (proj2 (advisory_empty_iff_no_rule
                  (mkState sample_records false "r-chol" "" false None) chol_only
                  selects_chol_only)) in Hdis.
  destruct Hdis as [Hno _]. exact (Hno Hm).
Defined.

Lemma append_nothing (s : string) : (s ++ "")%string = s.
Proof.
  induction s as [|c s IH]; [reflexivity |].
  change (String c (s ++ "")%string = String c s). f_equal. exact IH.
Qed.

Lemma append_regroup (a b c : string) :
  ((a ++ b) ++ c)%string = (a ++ b ++ c)%string.
Proof.
  induction a as [|x a IH]; [reflexivity |].
  change (String x ((a ++ b) ++ c)%string = String x (a ++ b ++ c)%string).
  f_equal. exact IH.
Qed.

Lemma occurs_join (sep s : string) (l : list string) :
  In s l -> occurs s (join sep l).
Proof.
  induction l as [|x rest IH]; intros Hin; [destruct Hin |].
  destruct rest as [|y rest'].
  - destruct Hin as [-> | []]. exists "", "".
    change (s = (s ++ "")%string). symmetry. apply append_nothing.
  - change (join sep (x :: y :: rest'))
      with (x ++ sep ++ join sep (y :: rest'))%string.
    destruct Hin as [-> | Hin].
    + exists "", (sep ++ join sep (y :: rest'))%string. reflexivity.
    + destruct (IH Hin) as (before & after & Heq).
      exists (x ++ sep ++ before)%string, after. rewrite Heq.
      rewrite !append_regroup. reflexivity.
Qed.

Lemma fired_occurs (c b o p : bool) :
  (occurs highCholesterol (join " " (fired c b o p)) <-> c = true)
  /\ (occurs highBP (join " " (fired c b o p)) <-> b = true)
  /\ (occurs stDepression (join " " (fired c b o p)) <-> o = true)
  /\ (occurs highProbability (join " " (fired c b o p)) <-> p = true).
Proof.
  destruct c, b, o, p; repeat split; intros H;
    try reflexivity; try discriminate H.
  all: try (apply occurs_join; simpl; tauto).
  all: exfalso; revert H; apply includes_false; vm_compute; reflexivity.
Qed.

(** X17.  For a selected record each of the four sentences occurs in the
    advisory text exactly when its own threshold is met: no sentence is
    dropped by the cut to four entries, and none appears for another
    rule's sake. *)
Theorem sentence_occurs_iff_rule
    (sel : string) (recs : list RecordType) (rec : RecordType) :
  selects sel recs rec ->
  (occurs highCholesterol (aiSuggestion sel recs) <-> meets (chol_of rec) 240)
  /\ (occurs highBP (aiSuggestion sel recs) <-> meets (trestbps_of rec) 140)
  /\ (occurs stDepression (aiSuggestion sel recs) <-> meets (oldpeak_of rec) 2)
  /\ (occurs highProbability (aiSuggestion sel recs)
      <-> meets (probability rec) (8 # 10)).
Proof.
  intros Hsel. rewrite (aiSuggestion_selected sel recs rec Hsel).
  rewrite <- !ge_spec. apply fired_occurs.
Qed.

Lemma sentence_occurs_iff_rule_witness :
  occurs highBP (aiSuggestion "r-high" sample_records)
  /\ ~ occurs highBP (aiSuggestion "r-chol" sample_records).
Proof.
  destruct (sentence_occurs_iff_rule "r-high" sample_records high_risk
              selects_high_risk) as (_ & Hhigh & _).
  destruct (sentence_occurs_iff_rule "r-chol" sample_records chol_only
              selects_chol_only) as (_ & Hchol & _).
  split.
  - apply Hhigh. apply (meets_number _ _ 150); reflexivity.
  - intros Hocc. apply Hchol in Hocc. apply ge_spec in Hocc. discriminate.
Defined.



End DoctorDashboardMore.

(** ** The risk overview *)

Section RiskDashboardMore.
Import RiskDashboard.

Lemma expanded_at_most_one (factors : list string) (sel : option string) :
  List.NoDup factors -> (List.length (expanded factors sel) <= 1)%nat.
Proof.
  intros Hnd. destruct sel as [s|]; unfold expanded.
  - induction Hnd as [|x l Hx _ IH]; simpl; [lia |].
    destruct (String.eqb_spec s x) as [-> | Hne]; [| exact IH].
    assert (Hnone : List.filter (is_selected (Some x)) l = []).
    { clear IH. induction l as [|y l IHl]; [reflexivity |]. simpl.
      destruct (String.eqb_spec x y) as [-> | _].
      - exfalso. apply Hx. left. reflexivity.
      - apply IHl. intros Hin. apply Hx. right. exact Hin. }
    simpl. rewrite Hnone. simpl. lia.
  - induction factors as [|x l IH]; simpl; [lia |].
    apply IH. inversion Hnd. assumption.
Qed.

Lemma clickFactor_cases (name : string) (sel : option string) :
  clickFactor name sel = None /\ sel = Some name
  \/ clickFactor name sel = Some name /\ sel <> Some name.
Proof.
  unfold clickFactor, is_selected. destruct sel as [s|].
  - destruct (String.eqb_spec s name) as [-> | Hne]; [left; auto |].
    right. split; [reflexivity | congruence].
  - right. split; [reflexivity | discriminate].
Qed.

(** X19.  The factor cards behave as an accordion.  After any sequence
    of clicks ending on a factor, the selection is that factor or
    nothing: it is nothing exactly when that factor was open just before
    the last click.  With distinct factor names at most one description
    is rendered at any time. *)
Theorem factor_accordion
    (factors clicks : list string) (last : string) (sel : option string) :
  List.NoDup factors ->
  let before := click_all clicks sel in
  let after := click_all (clicks ++ [last]) sel in
  (after = None <-> before = Some last)
  /\ (after = Some last <-> before <> Some last)
  /\ (List.length (expanded factors after) <= 1)%nat
  /\ (List.length (expanded factors before) <= 1)%nat.
Proof.
  intros Hnd before after. subst before after. unfold click_all.
  rewrite foldl_app. cbn [foldl].
  set (b := foldl (fun s n => clickFactor n s) sel clicks).
  split; [| split; [| split]]; try (apply expanded_at_most_one, Hnd).
  - destruct (clickFactor_cases last b) as [[-> Hb] | [-> Hb]];
      split; intros H; auto; try discriminate; contradiction.
  - destruct (clickFactor_cases last b) as [[-> Hb] | [-> Hb]];
      split; intros H; auto; try discriminate; contradiction.
Qed.

Lemma factor_names_distinct : List.NoDup factor_names.
Proof.
  unfold factor_names.
  repeat (apply List.NoDup_cons; [simpl; intuition discriminate |]).
  apply List.NoDup_nil.
Defined.

Lemma factor_accordion_witness :
  click_all (["Age"; "Cholesterol"] ++ ["Cholesterol"]) None = None
  /\ (List.length (expanded factor_names
                     (click_all (["Age"; "Cholesterol"] ++ ["Cholesterol"]) None))
      <= 1)%nat.
Proof.
  destruct (factor_accordion factor_names ["Age"; "Cholesterol"] "Cholesterol" None
              factor_names_distinct) as (Hnone & _ & Hlen & _).
  split; [apply Hnone; reflexivity | exact Hlen].
Defined.

End RiskDashboardMore.
